(** * RVC voice-conversion inference script: model and properties

    Shallow embedding of [docker/rvc/inference.py].  The script is a thin
    pipeline over third-party libraries (librosa, soundfile, torch).  The
    script's own control flow is embedded as executable definitions in a
    state-and-exception monad; the libraries are a record of functions
    ([host]) over which every general theorem is universally quantified.
    One concrete host ([Ref.ref_host]) is defined at the end of the
    definitions to evaluate the script on explicit inputs. *)

From Stdlib Require Import ZArith List Ascii String Bool Lia.
Import ListNotations.

Local Open Scope string_scope.
Local Open Scope Z_scope.

(** ** Python exceptions *)

(** The classes the script can meet.  The first three derive from
    [BaseException] only; every other class derives from [Exception]. *)
Inductive exn_class : Type :=
| SystemExit
| KeyboardInterrupt
| GeneratorExit
| AttributeError
| TypeError
| KeyError
| IndexError
| ValueError
| RuntimeError
| FileNotFoundError
| OSError
| LibraryError (name : string).

Record exn : Type := MkExn { exn_cls : exn_class; exn_msg : string }.

(** [isinstance(e, Exception)]: what [except Exception] catches. *)
Definition is_Exception (e : exn) : bool :=
  match exn_cls e with
  | SystemExit | KeyboardInterrupt | GeneratorExit => false
  | _ => true
  end.

(** [isinstance(e, AttributeError)]: what [hasattr] swallows. *)
Definition is_AttributeError (e : exn) : bool :=
  match exn_cls e with
  | AttributeError => true
  | _ => false
  end.

(** Result of evaluating a Python expression: a value or a raised exception. *)
Inductive outcome (A : Type) : Type :=
| Ret (a : A)
| Raise (e : exn).

Arguments Ret {A} a.
Arguments Raise {A} e.

Definition obind {A B : Type} (o : outcome A) (k : A -> outcome B) : outcome B :=
  match o with
  | Ret a => k a
  | Raise e => Raise e
  end.

(** ** Arrays, tensors and Python values *)

(** A float32 amplitude, kept as its IEEE-754 bit pattern.  The script never
    computes on amplitudes; it only moves them between library calls. *)
Definition sample : Type := Z.

Record ndarray : Type := MkArray {
  a_shape : list nat;
  a_data : list sample
}.

(** A dense, strided, real float32 tensor that holds its data: the kind
    [torch.from_numpy(audio).float()] builds and [Tensor.to] moves. *)
Record tensor : Type := MkTensor {
  t_shape : list nat;
  t_data : list sample;
  t_device : string
}.

(** The other kinds of tensor a network can return, for which the chain
    [squeeze().cpu().numpy()] of line 65 does not go through: [numpy()]
    refuses the dtype bfloat16, any layout but the strided one, and a tensor
    with its conjugate bit set; [cpu()] cannot copy a meta tensor, which has
    no data.  (A tensor that requires grad is no such case: the call is made
    with grad mode off.) *)
Inductive tensor_kind : Type :=
| Bfloat16
| Sparse
| Conjugate
| Meta.

(** The objects that [torch.load] can hand back and that a network can
    return.  [VObject] is an instance of a user-defined class (an
    [nn.Module] subclass, say) whose class defines none of [__contains__],
    [__iter__], [__getitem__]; its attribute lookup is an arbitrary function,
    so properties that raise are covered.  [VCallable] stands for anything
    that can be called (function, bound method, callable instance); the
    script only ever passes tensors. Network code is a function of its
    arguments: it may return anything or raise anything, but it does not
    print or touch files. *)
#[warnings="-register-all"]
Inductive value : Type :=
| VNone
| VInt (n : Z)
| VStr (s : string)
| VList (xs : list value)
| VDict (kvs : list (string * value))
| VArray (a : ndarray)
| VTensor (t : tensor)
| VOtherTensor (kind : tensor_kind) (shape : list nat)
| VCallable (f : list tensor -> outcome value)
| VObject (cls : string) (attrs : string -> outcome value).

Definition type_name (v : value) : string :=
  match v with
  | VNone => "NoneType"
  | VInt _ => "int"
  | VStr _ => "str"
  | VList _ => "list"
  | VDict _ => "dict"
  | VArray _ => "numpy.ndarray"
  | VTensor _ => "Tensor"
  | VOtherTensor _ _ => "Tensor"
  | VCallable _ => "method"
  | VObject cls _ => cls
  end.

(** Attribute table of an ordinary instance: listed names resolve, any other
    name raises [AttributeError]. *)
Fixpoint attrs_of (tbl : list (string * value)) (name : string) : outcome value :=
  match tbl with
  | [] => Raise (MkExn AttributeError ("object has no attribute '" ++ name ++ "'"))
  | (k, v) :: rest => if String.eqb k name then Ret v else attrs_of rest name
  end.

(** *** Tensor methods used by the script *)

(** [torch.from_numpy(a).float()]: a CPU tensor over the same data. *)
Definition from_numpy_float (a : ndarray) : tensor :=
  MkTensor (a_shape a) (a_data a) "cpu".

(** [t.unsqueeze(0)] *)
Definition unsqueeze0 (t : tensor) : tensor :=
  MkTensor (1%nat :: t_shape t) (t_data t) (t_device t).

Definition drop_unit_dims (shape : list nat) : list nat :=
  filter (fun d => negb (Nat.eqb d 1)) shape.

(** [t.squeeze()] *)
Definition squeeze (t : tensor) : tensor :=
  MkTensor (drop_unit_dims (t_shape t)) (t_data t) (t_device t).

(** [t.cpu()]: the tensor, on the host.  A fault of the device during the
    copy is not modelled, no more than a failing [print]. *)
Definition cpu (t : tensor) : tensor :=
  MkTensor (t_shape t) (t_data t) "cpu".

(** [t.numpy()] on a dense float32 tensor: only CPU tensors convert. *)
Definition numpy (t : tensor) : outcome value :=
  if String.eqb (t_device t) "cpu"
  then Ret (VArray (MkArray (t_shape t) (t_data t)))
  else Raise (MkExn TypeError "can't convert non-cpu tensor to numpy").

Definition nullary (body : outcome value) : value :=
  VCallable (fun args =>
    match args with
    | [] => body
    | _ => Raise (MkExn TypeError "takes no positional arguments")
    end).

(** [t.cpu()] on a tensor of another kind. *)
Definition other_cpu (kind : tensor_kind) (shape : list nat) : outcome value :=
  match kind with
  | Meta =>
      Raise (MkExn (LibraryError "NotImplementedError")
               "Cannot copy out of meta tensor; no data!")
  | _ => Ret (VOtherTensor kind shape)
  end.

(** [t.numpy()] on a tensor of another kind. *)
Definition other_numpy (kind : tensor_kind) : outcome value :=
  match kind with
  | Bfloat16 => Raise (MkExn TypeError "Got unsupported ScalarType BFloat16")
  | Sparse => Raise (MkExn TypeError "can't convert Sparse layout tensor to numpy")
  | Conjugate =>
      Raise (MkExn RuntimeError "Can't call numpy() on Tensor that has conjugate bit set")
  | Meta => Raise (MkExn TypeError "can't convert meta device type tensor to numpy")
  end.

(** *** Python operators used by the script *)

Definition no_attribute (v : value) (name : string) : exn :=
  MkExn AttributeError
    ("'" ++ type_name v ++ "' object has no attribute '" ++ name ++ "'").

(** [getattr(v, name)], for the four names the script looks up: [infer],
    [squeeze], [cpu], [numpy].  Among the builtin types only tensors (and
    [ndarray.squeeze]) define any of them. *)
Definition py_getattr (v : value) (name : string) : outcome value :=
  match v with
  | VObject _ attrs => attrs name
  | VTensor t =>
      if String.eqb name "squeeze" then Ret (nullary (Ret (VTensor (squeeze t))))
      else if String.eqb name "cpu" then Ret (nullary (Ret (VTensor (cpu t))))
      else if String.eqb name "numpy" then Ret (nullary (numpy t))
      else Raise (no_attribute v name)
  | VOtherTensor kind shape =>
      if String.eqb name "squeeze"
      then Ret (nullary (Ret (VOtherTensor kind (drop_unit_dims shape))))
      else if String.eqb name "cpu" then Ret (nullary (other_cpu kind shape))
      else if String.eqb name "numpy" then Ret (nullary (other_numpy kind))
      else Raise (no_attribute v name)
  | VArray a =>
      if String.eqb name "squeeze"
      then Ret (nullary (Ret (VArray (MkArray (drop_unit_dims (a_shape a)) (a_data a)))))
      else Raise (no_attribute v name)
  | _ => Raise (no_attribute v name)
  end.

(** [hasattr(v, name)]: true when the lookup succeeds, false when it raises
    [AttributeError]; any other exception propagates. *)
Definition py_hasattr (v : value) (name : string) : outcome bool :=
  match py_getattr v name with
  | Ret _ => Ret true
  | Raise e => if is_AttributeError e then Ret false else Raise e
  end.

(** [f(args)]: calling a value. *)
Definition py_call (f : value) (args : list tensor) : outcome value :=
  match f with
  | VCallable g => g args
  | _ => Raise (MkExn TypeError ("'" ++ type_name f ++ "' object is not callable"))
  end.

(** [v.name(args)]: attribute lookup, then call. *)
Definition py_call_method (v : value) (name : string) (args : list tensor)
  : outcome value :=
  obind (py_getattr v name) (fun f => py_call f args).

Definition is_substring (needle hay : string) : bool :=
  match String.index 0 needle hay with
  | Some _ => true
  | None => false
  end.

Definition is_str (key : string) (v : value) : bool :=
  match v with
  | VStr s => String.eqb s key
  | _ => false
  end.

Definition not_iterable (v : value) : exn :=
  MkExn TypeError ("argument of type '" ++ type_name v ++ "' is not iterable").

(** [key in c] for a string [key]: key membership for a dict, element
    membership for a list, substring test for a string, all-[False]
    elementwise comparison for a float array; [Tensor.__contains__] rejects
    a string with [RuntimeError]; an object without the container protocol
    makes the operator itself raise [TypeError]. *)
Definition py_contains (key : string) (c : value) : outcome bool :=
  match c with
  | VDict kvs => Ret (existsb (fun kv => String.eqb (fst kv) key) kvs)
  | VList xs => Ret (existsb (is_str key) xs)
  | VStr s => Ret (is_substring key s)
  | VArray _ => Ret false
  | VTensor _ | VOtherTensor _ _ =>
      Raise (MkExn RuntimeError "Tensor.__contains__ only supports Tensor or scalar")
  | VNone | VInt _ | VCallable _ | VObject _ _ => Raise (not_iterable c)
  end.

Fixpoint dict_get (kvs : list (string * value)) (key : string) : option value :=
  match kvs with
  | [] => None
  | (k, v) :: rest => if String.eqb k key then Some v else dict_get rest key
  end.

(** [c[key]] for a string [key]. *)
Definition py_getitem (c : value) (key : string) : outcome value :=
  match c with
  | VDict kvs =>
      match dict_get kvs key with
      | Some v => Ret v
      | None => Raise (MkExn KeyError key)
      end
  | VList _ => Raise (MkExn TypeError "list indices must be integers or slices, not str")
  | VStr _ => Raise (MkExn TypeError "string indices must be integers")
  | VArray _ | VTensor _ | VOtherTensor _ _ =>
      Raise (MkExn IndexError "only integers and slices are valid indices")
  | VNone | VInt _ | VCallable _ | VObject _ _ =>
      Raise (MkExn TypeError ("'" ++ type_name c ++ "' object is not subscriptable"))
  end.

(** [extractNetwork]: lines 41-44 of [RVCInference.__init__]. *)
Definition extract_network (model : value) : outcome value :=
  obind (py_contains "model" model) (fun has_model =>
    if has_model then py_getitem model "model" else Ret model).

(** ** The host: file system, standard output, libraries *)

Definition fs : Type := string -> option (list Byte.byte).

(** [os.path.exists] *)
Definition path_exists (files : fs) (path : string) : bool :=
  match files path with
  | Some _ => true
  | None => false
  end.

(** The third-party operations the script calls.  Each may raise.
    [sf_write_impl] returns the file system it leaves behind, also when it
    raises (a partially written file is the library's business). *)
Record host : Type := MkHost {
  librosa_load_impl : fs -> string -> outcome (ndarray * Z);
  librosa_resample_impl : ndarray -> Z -> Z -> outcome ndarray;
  pitch_shift_impl : value -> Z -> Z -> outcome ndarray;
  sf_write_impl : fs -> string -> value -> Z -> outcome unit * fs;
  torch_load_impl : fs -> string -> string -> outcome value;
  tensor_to_impl : tensor -> string -> outcome tensor
}.

(** What an observer of one run can see, in order: lines printed and
    library calls issued (recorded when the call is made, whatever its
    outcome). *)
Inductive event : Type :=
| EvPrint (line : string)
| EvDecode (path : string)
| EvResample (orig_sr target_sr : Z)
| EvTorchLoad (path device : string)
| EvTo (device : string)
| EvPitchShift (sr n_steps : Z)
| EvWrite (path : string) (sr : Z).

Record world : Type := MkWorld {
  w_fs : fs;
  w_trace : list event;
  w_grad : bool
}.

(** ** State-and-exception monad *)

Definition M (A : Type) : Type := world -> outcome A * world.

Definition ret {A : Type} (a : A) : M A := fun w => (Ret a, w).

Definition raise {A : Type} (e : exn) : M A := fun w => (Raise e, w).

Definition bind {A B : Type} (m : M A) (k : A -> M B) : M B :=
  fun w =>
    match m w with
    | (Ret a, w') => k a w'
    | (Raise e, w') => (Raise e, w')
    end.

Definition lift {A : Type} (o : outcome A) : M A := fun w => (o, w).

(** An operation that only looks at the file system. *)
Definition reads {A : Type} (f : fs -> outcome A) : M A := fun w => (f (w_fs w), w).

Declare Scope py_scope.
Delimit Scope py_scope with py.
Notation "x <- m ;; k" := (bind m (fun x => k))
  (at level 61, m at next level, right associativity) : py_scope.
Notation "' pat <- m ;; k" := (bind m (fun x => match x with pat => k end))
  (at level 61, pat pattern, m at next level, right associativity) : py_scope.
Notation "m ;; k" := (bind m (fun _ => k))
  (at level 61, right associativity) : py_scope.
Local Open Scope py_scope.

Definition record (ev : event) (w : world) : world :=
  MkWorld (w_fs w) (w_trace w ++ [ev]) (w_grad w).

Definition emit (ev : event) : M unit := fun w => (Ret tt, record ev w).

(** [print(line)] *)
Definition print (line : string) : M unit := emit (EvPrint line).

(** [try: body  except Exception as e: handler(e)] *)
Definition try_except_Exception {A : Type} (body : M A) (handler : exn -> M A) : M A :=
  fun w =>
    match body w with
    | (Ret a, w') => (Ret a, w')
    | (Raise e, w') => if is_Exception e then handler e w' else (Raise e, w')
    end.

Definition set_grad (g : bool) (w : world) : world :=
  MkWorld (w_fs w) (w_trace w) g.

(** [with torch.no_grad(): body]: gradient mode off inside, previous mode
    restored on the way out, exceptions not suppressed. *)
Definition with_no_grad {A : Type} (body : M A) : M A :=
  fun w =>
    let prev := w_grad w in
    let (r, w') := body (set_grad false w) in
    (r, set_grad prev w').

(** [sys.exit(code)] *)
Definition sys_exit {A : Type} (code : string) : M A := raise (MkExn SystemExit code).

(** ** The script *)

Section Script.

Variable H : host.

(** *** Library calls, as the script issues them *)

(** [librosa.load(path, sr=None, mono=True)] *)
Definition librosa_load (path : string) : M (ndarray * Z) :=
  emit (EvDecode path) ;;
  reads (fun files => librosa_load_impl H files path).

(** [librosa.resample(audio, orig_sr=orig_sr, target_sr=target_sr)] *)
Definition librosa_resample (audio : ndarray) (orig_sr target_sr : Z) : M ndarray :=
  emit (EvResample orig_sr target_sr) ;;
  lift (librosa_resample_impl H audio orig_sr target_sr).

(** [librosa.effects.pitch_shift(y, sr=sr, n_steps=n_steps)] *)
Definition librosa_pitch_shift (y : value) (sr n_steps : Z) : M value :=
  emit (EvPitchShift sr n_steps) ;;
  shifted <- lift (pitch_shift_impl H y sr n_steps) ;;
  ret (VArray shifted).

(** [sf.write(path, data, sr)] *)
Definition sf_write (path : string) (data : value) (sr : Z) : M unit :=
  emit (EvWrite path sr) ;;
  (fun w =>
     let (r, files) := sf_write_impl H (w_fs w) path data sr in
     (r, MkWorld files (w_trace w) (w_grad w))).

(** [torch.load(path, map_location=device)] *)
Definition torch_load (path device : string) : M value :=
  emit (EvTorchLoad path device) ;;
  reads (fun files => torch_load_impl H files path device).

(** [torch.from_numpy(audio).float().to(device)] *)
Definition tensor_bind (audio : ndarray) (device : string) : M tensor :=
  emit (EvTo device) ;;
  lift (tensor_to_impl H (from_numpy_float audio) device).

(** *** [load_audio], [save_audio] *)

Definition load_audio (path : string) (sr : Z) : M ndarray :=
  '(audio, orig_sr) <- librosa_load path ;;
  audio <- (if negb (orig_sr =? sr)
            then librosa_resample audio orig_sr sr
            else ret audio) ;;
  ret audio.

Definition save_audio (path : string) (audio : value) (sr : Z) : M unit :=
  sf_write path audio sr.

(** *** [class RVCInference] *)

Record RVCInference : Type := MkRVC {
  device : string;
  model_path : string;
  index_path : option string;
  model : value;
  net_g : value
}.

Definition RVCInference_init (model_path : string) (index_path : option string)
    (device : string) : M RVCInference :=
  print ("Loading model: " ++ model_path) ;;
  model <- torch_load model_path device ;;
  net_g <- lift (extract_network model) ;;
  print "Model loaded successfully" ;;
  ret (MkRVC device model_path index_path model net_g).

Definition passthrough_warning : string :=
  "Warning: Model doesn't have infer method, using passthrough".

Definition conversion_error (e : exn) : string :=
  "Conversion error: " ++ exn_msg e.

(** [output.squeeze().cpu().numpy()] *)
Definition extract_output (output : value) : outcome value :=
  obind (py_call_method output "squeeze" []) (fun squeezed =>
  obind (py_call_method squeezed "cpu" []) (fun on_cpu =>
  py_call_method on_cpu "numpy" [])).

(** Lines 61-72: the [try] statement ("Apply model transformation if
    possible"). *)
Definition model_transformation (self : RVCInference) (audio : ndarray)
    (audio_tensor : tensor) : M value :=
  try_except_Exception
    (has_infer <- lift (py_hasattr (net_g self) "infer") ;;
     if has_infer then
       output <- lift (py_call_method (net_g self) "infer" [unsqueeze0 audio_tensor]) ;;
       lift (extract_output output)
     else
       print passthrough_warning ;;
       ret (VArray audio))
    (fun e =>
       print (conversion_error e) ;;
       ret (VArray audio)).

(** Lines 57-72: the [with torch.no_grad()] block. *)
Definition conversion_block (self : RVCInference) (audio : ndarray) : M value :=
  with_no_grad
    (audio_tensor <- tensor_bind audio (device self) ;;
     model_transformation self audio audio_tensor).

(** Lines 74-78: "Apply pitch shift if requested". *)
Definition apply_pitch_shift (output_audio : value) (pitch_shift : Z) : M value :=
  if negb (pitch_shift =? 0)
  then librosa_pitch_shift output_audio 16000 pitch_shift
  else ret output_audio.

Definition saved_message (output_path : string) : string :=
  "Saved: " ++ output_path.

(** Lines 80-84: "Save output" and return. *)
Definition save_output (output_path : string) (output_audio : value) : M string :=
  save_audio output_path output_audio 16000 ;;
  print (saved_message output_path) ;;
  ret output_path.

(** Lines 74-84: everything after the conversion block. *)
Definition postprocess (output_path : string) (output_audio : value)
    (pitch_shift : Z) : M string :=
  output_audio <- apply_pitch_shift output_audio pitch_shift ;;
  save_output output_path output_audio.

Definition converting_message (input_path output_path : string) : string :=
  "Converting: " ++ input_path ++ " -> " ++ output_path.

Definition convert (self : RVCInference) (input_path output_path : string)
    (pitch_shift : Z) (f0_method : string) : M string :=
  print (converting_message input_path output_path) ;;
  audio <- load_audio input_path 16000 ;;
  output_audio <- conversion_block self audio ;;
  postprocess output_path output_audio pitch_shift.

(** *** [main] *)

(** The namespace [argparse] hands to [main]. *)
Record args : Type := MkArgs {
  arg_model : string;
  arg_index : option string;
  arg_input : string;
  arg_output : string;
  arg_pitch : Z;
  arg_device : string
}.

Definition exit_unless_exists (label path : string) : M unit :=
  fun w =>
    if negb (path_exists (w_fs w) path)
    then (print ("Error: " ++ label ++ " not found: " ++ path) ;; sys_exit "1") w
    else ret tt w.

(** Lines 105-107: "Run inference". *)
Definition run_inference (a : args) : M string :=
  rvc <- RVCInference_init (arg_model a) (arg_index a) (arg_device a) ;;
  convert rvc (arg_input a) (arg_output a) (arg_pitch a) "dio".

Definition main (a : args) : M unit :=
  exit_unless_exists "Model" (arg_model a) ;;
  exit_unless_exists "Input file" (arg_input a) ;;
  run_inference a ;;
  print "Done!".

End Script.

(** ** Vocabulary of the properties *)

(** [m] never changes the file system. *)
Definition keeps_files {A : Type} (m : M A) : Prop :=
  forall w, w_fs (snd (m w)) = w_fs w.

(** [m] only appends to the trace, and every event it appends satisfies [Q]. *)
Definition emits (Q : event -> Prop) {A : Type} (m : M A) : Prop :=
  forall w, exists evs, w_trace (snd (m w)) = (w_trace w ++ evs)%list /\ Forall Q evs.

(** An array carries no sample rate.  What rate its samples are at is known
    from where it comes from, by the libraries' contracts: [librosa.load]
    reports the native rate of what it decodes, and [librosa.resample]
    turns samples at [orig_sr] into samples at [target_sr]. *)
Inductive at_rate (H : host) : ndarray -> Z -> Prop :=
| rate_decoded (files : fs) (path : string) (audio : ndarray) (sr : Z) :
    librosa_load_impl H files path = Ret (audio, sr) ->
    at_rate H audio sr
| rate_resampled (audio resampled : ndarray) (orig_sr target_sr : Z) :
    at_rate H audio orig_sr ->
    librosa_resample_impl H audio orig_sr target_sr = Ret resampled ->
    at_rate H resampled target_sr.



Definition not_write (ev : event) : Prop :=
  match ev with
  | EvWrite _ _ => False
  | _ => True
  end.


(** The event mentions nothing but what the command line [a] names: the
    three paths, the device, the pitch, and the fixed rate. *)
Definition confined (a : args) (ev : event) : Prop :=
  match ev with
  | EvPrint _ => True
  | EvDecode path => path = arg_input a
  | EvResample _ target_sr => target_sr = 16000
  | EvTorchLoad path dev => path = arg_model a /\ dev = arg_device a
  | EvTo dev => dev = arg_device a
  | EvPitchShift sr n_steps => sr = 16000 /\ n_steps = arg_pitch a
  | EvWrite path sr => path = arg_output a /\ sr = 16000
  end.

(** The event is not the final line of [main]. *)
Definition not_done (ev : event) : Prop :=
  match ev with
  | EvPrint line => line <> "Done!"
  | _ => True
  end.

(** Values with a [squeeze] method that returns something with a [cpu]
    method: tensors, and instances that may define anything. *)
Definition may_extract (v : value) : bool :=
  match v with
  | VTensor _ | VOtherTensor _ _ | VObject _ _ => true
  | _ => false
  end.

(** Instances of user-defined classes, as opposed to builtin data. *)
Definition is_instance (v : value) : bool :=
  match v with
  | VObject _ _ => true
  | _ => false
  end.


(** The lines a printed text shows on standard output: the text, cut at
    its line breaks. *)
Fixpoint lines_of (text : string) : list string :=
  match text with
  | EmptyString => [EmptyString]
  | String c rest =>
      if Ascii.eqb c "010"%char
      then EmptyString :: lines_of rest
      else match lines_of rest with
           | [] => [String c EmptyString]
           | line :: more => String c line :: more
           end
  end.

Fixpoint has_line_break (text : string) : bool :=
  match text with
  | EmptyString => false
  | String c rest => Ascii.eqb c "010"%char || has_line_break rest
  end.

(** The lines of standard output that a sequence of events leaves. *)
Definition stdout_lines (evs : list event) : list string :=
  flat_map (fun ev => match ev with EvPrint text => lines_of text | _ => [] end) evs.

(** The event prints no text that spans several lines. *)
Definition one_line (ev : event) : Prop :=
  match ev with
  | EvPrint text => has_line_break text = false
  | _ => True
  end.

(** The world [RVCInference.__init__] leaves when it succeeds. *)
Definition constructed (model_path device : string) (w : world) : world :=
  record (EvPrint "Model loaded successfully")
    (record (EvTorchLoad model_path device)
       (record (EvPrint ("Loading model: " ++ model_path)) w)).

(** ** A reference host

    A small, fully executable host used to run the script on explicit
    inputs: a CPU-only machine, a headerless audio format (32-bit
    little-endian rate, then one 32-bit little-endian word per sample), a
    nearest-neighbour resampler, a pitch shifter that rejects what is not an
    array and a number of semitones out of range, and a handful of network
    classes that [torch.load] can rebuild from a one-byte tag. *)
Module Ref.

Definition byte_of_Z (z : Z) : Byte.byte :=
  match Byte.of_N (Z.to_N (z mod 256)) with
  | Some b => b
  | None => Byte.x00
  end.

Definition Z_of_byte (b : Byte.byte) : Z := Z.of_N (Byte.to_N b).

Definition le32 (z : Z) : list Byte.byte :=
  [byte_of_Z z; byte_of_Z (z / 256); byte_of_Z (z / 65536); byte_of_Z (z / 16777216)].

Fixpoint words (bs : list Byte.byte) : option (list Z) :=
  match bs with
  | [] => Some []
  | b0 :: b1 :: b2 :: b3 :: rest =>
      match words rest with
      | Some ws =>
          Some ((Z_of_byte b0 + 256 * Z_of_byte b1 + 65536 * Z_of_byte b2
                 + 16777216 * Z_of_byte b3) :: ws)
      | None => None
      end
  | _ => None
  end.

Definition encode_audio (a : ndarray) (sr : Z) : list Byte.byte :=
  le32 sr ++ flat_map le32 (a_data a).

Definition decode_audio (bs : list Byte.byte) : outcome (ndarray * Z) :=
  match words bs with
  | Some (sr :: data) => Ret (MkArray [List.length data] data, sr)
  | _ => Raise (MkExn (LibraryError "LibsndfileError") "Format not recognised.")
  end.

Definition load_impl (files : fs) (path : string) : outcome (ndarray * Z) :=
  match files path with
  | Some bs => decode_audio bs
  | None => Raise (MkExn FileNotFoundError path)
  end.

(** Output sample [i] is input sample [i * orig_sr / target_sr]. *)
Definition resample_impl (a : ndarray) (orig_sr target_sr : Z) : outcome ndarray :=
  if (0 <? orig_sr) && (0 <? target_sr) then
    let n := Z.to_nat (Z.of_nat (List.length (a_data a)) * target_sr / orig_sr) in
    let pick i := nth (Z.to_nat (Z.of_nat i * orig_sr / target_sr)) (a_data a) 0 in
    Ret (MkArray [n] (map pick (seq 0 n)))
  else Raise (MkExn (LibraryError "ParameterError") "sample rates must be positive").

(** Reads the input faster or slower by 18/17 per semitone, wrapping around,
    so that the length is kept (an empty input gives an empty output).  The
    stretch rate [2 ** (-n_steps / 12)] must be a positive float: it is 0.0
    from 12900 semitones up, and overflows from -12288 semitones down. *)
Definition pitch_impl (y : value) (sr n_steps : Z) : outcome ndarray :=
  match y with
  | VArray a =>
      if 12900 <=? n_steps
      then Raise (MkExn (LibraryError "ParameterError") "rate must be a positive number")
      else if n_steps <=? -12288
      then Raise (MkExn (LibraryError "OverflowError") "Numerical result out of range")
      else
        let len := Z.of_nat (List.length (a_data a)) in
        let num := if 0 <=? n_steps then 18 ^ n_steps else 17 ^ (- n_steps) in
        let den := if 0 <=? n_steps then 17 ^ n_steps else 18 ^ (- n_steps) in
        let pick i := nth (Z.to_nat ((Z.of_nat i * num / den) mod len)) (a_data a) 0 in
        Ret (MkArray (a_shape a) (map pick (seq 0 (List.length (a_data a)))))
  | _ => Raise (MkExn (LibraryError "ParameterError") "Audio data must be of type numpy.ndarray")
  end.

Definition put (files : fs) (path : string) (bs : list Byte.byte) : fs :=
  fun p => if String.eqb p path then Some bs else files p.

(** Nothing can be created under [/proc/]. *)
Definition writable (path : string) : bool := negb (String.prefix "/proc/" path).

Definition write_impl (files : fs) (path : string) (data : value) (sr : Z)
  : outcome unit * fs :=
  match data with
  | VArray a =>
      if writable path
      then (Ret tt, put files path (encode_audio a sr))
      else (Raise (MkExn (LibraryError "LibsndfileError") ("Error opening " ++ path)), files)
  | _ => (Raise (MkExn TypeError "data must be an array"), files)
  end.

Definition to_impl (t : tensor) (device : string) : outcome tensor :=
  if String.eqb device "cpu"
  then Ret (MkTensor (t_shape t) (t_data t) "cpu")
  else Raise (MkExn RuntimeError "No CUDA GPUs are available").

(** A network whose [infer] returns its input. *)
Definition echo_net : value :=
  VObject "EchoNet"
    (attrs_of [("infer", VCallable (fun xs =>
       match xs with
       | [x] => Ret (VTensor x)
       | _ => Raise (MkExn TypeError "infer() takes 1 positional argument")
       end))]).

(** A network whose [infer] always raises. *)
Definition broken_net : value :=
  VObject "BrokenNet"
    (attrs_of [("infer", VCallable (fun _ =>
       Raise (MkExn RuntimeError "size mismatch")))]).

(** A network with no [infer] at all. *)
Definition plain_net : value := VObject "Generator" (attrs_of []).

(** A network whose [infer] leaves the interpreter. *)
Definition quitting_net : value :=
  VObject "QuittingNet"
    (attrs_of [("infer", VCallable (fun _ => Raise (MkExn SystemExit "0")))]).

Definition unpickle (bs : list Byte.byte) : outcome value :=
  match bs with
  | [b] =>
      match Z_of_byte b with
      | 0 => Ret (VDict [("model", echo_net)])
      | 1 => Ret (VDict [("weight", VDict []); ("config", VList [])])
      | 2 => Ret echo_net
      | 3 => Ret (VDict [("model", broken_net)])
      | 4 => Ret (VDict [("model", plain_net)])
      | _ => Raise (MkExn (LibraryError "UnpicklingError") "invalid load key")
      end
  | _ => Raise (MkExn (LibraryError "UnpicklingError") "invalid load key")
  end.

Definition torch_impl (files : fs) (path device : string) : outcome value :=
  match files path with
  | Some bs => unpickle bs
  | None => Raise (MkExn FileNotFoundError path)
  end.

Definition ref_host : host :=
  MkHost load_impl resample_impl pitch_impl write_impl torch_impl to_impl.

Definition no_files : fs := fun _ => None.

Definition start (files : fs) : world := MkWorld files [] true.

(** Two samples at 8 kHz, two at 16 kHz, and nothing at 16 kHz. *)
Definition clip8k : ndarray := MkArray [2%nat] [1065353216; 1056964608].
Definition clip16k : ndarray := MkArray [2%nat] [1065353216; 1056964608].
Definition silence : ndarray := MkArray [0%nat] [].

Definition disk : fs :=
  put (put (put (put (put (put no_files
    "in8k.wav" (encode_audio clip8k 8000))
    "in16k.wav" (encode_audio clip16k 16000))
    "empty.wav" (encode_audio silence 16000))
    "echo.pth" [Byte.x00])
    "broken.pth" [Byte.x03])
    "plain.pth" [Byte.x04].

(** The world in which the conversion block starts, in a run of [convert]
    from [start disk] whose input needs no resampling. *)
Definition decoded (input_path output_path : string) : world :=
  record (EvDecode input_path)
    (record (EvPrint (converting_message input_path output_path)) (start disk)).

(** The [infer] attribute of [broken_net]. *)
Definition broken_infer : value :=
  VCallable (fun _ => Raise (MkExn RuntimeError "size mismatch")).

Definition size_mismatch : exn := MkExn RuntimeError "size mismatch".

Definition bad_rate : exn :=
  MkExn (LibraryError "ParameterError") "rate must be a positive number".

Definition cannot_open (path : string) : exn :=
  MkExn (LibraryError "LibsndfileError") ("Error opening " ++ path).




(** A network whose [infer] returns a bfloat16 tensor. *)
Definition half_infer : value :=
  VCallable (fun xs =>
    match xs with
    | [x] => Ret (VOtherTensor Bfloat16 (t_shape x))
    | _ => Raise (MkExn TypeError "infer() takes 1 positional argument")
    end).

Definition half_net : value :=
  VObject "HalfNet" (attrs_of [("infer", half_infer)]).

(** A network whose [infer] returns a list, not a tensor. *)
Definition listing_infer : value := VCallable (fun _ => Ret (VList [])).

Definition listing_net : value :=
  VObject "ListingNet" (attrs_of [("infer", listing_infer)]).

(** The [infer] attribute of [echo_net]. *)
Definition echo_infer : value :=
  VCallable (fun xs =>
    match xs with
    | [x] => Ret (VTensor x)
    | _ => Raise (MkExn TypeError "infer() takes 1 positional argument")
    end).

(** A checkpoint that holds weights and no network object. *)
Definition weights : value := VDict [("weight", VDict []); ("config", VList [])].


(** The object [RVCInference("model.pth", None, device)] once a bundle
    holding [net] under ["model"] is loaded. *)
Definition rvc (device : string) (net : value) : RVCInference :=
  MkRVC device "model.pth" None (VDict [("model", net)]) net.

End Ref.

(** * Properties *)

Local Open Scope list_scope.

(** ** Running the monad *)

Lemma bind_Ret {A B : Type} (m : M A) (k : A -> M B) (w w' : world) (a : A) :
  m w = (Ret a, w') -> bind m k w = k a w'.
Proof. intros E. unfold bind. now rewrite E. Qed.

Lemma bind_Raise {A B : Type} (m : M A) (k : A -> M B) (w w' : world) (e : exn) :
  m w = (Raise e, w') -> bind m k w = (Raise e, w').
Proof. intros E. unfold bind. now rewrite E. Qed.

(** ** Frame properties: files kept, events emitted *)

Section Frames.

Context {A B : Type}.

Lemma keeps_files_ret (a : A) : keeps_files (ret a).
Proof. now intros w. Qed.

Lemma keeps_files_lift (o : outcome A) : keeps_files (lift o).
Proof. now intros w. Qed.

Lemma keeps_files_raise (e : exn) : keeps_files (@raise A e).
Proof. now intros w. Qed.

Lemma keeps_files_bind (m : M A) (k : A -> M B) :
  keeps_files m -> (forall a, keeps_files (k a)) -> keeps_files (bind m k).
Proof.
  intros Hm Hk w. unfold bind. specialize (Hm w).
  destruct (m w) as [[a | e] w1]; simpl in *.
  - now rewrite Hk.
  - exact Hm.
Qed.

Lemma keeps_files_try (body : M A) (handler : exn -> M A) :
  keeps_files body -> (forall e, keeps_files (handler e)) ->
  keeps_files (try_except_Exception body handler).
Proof.
  intros Hb Hh w. unfold try_except_Exception. specialize (Hb w).
  destruct (body w) as [[a | e] w1]; simpl in *; [exact Hb |].
  destruct (is_Exception e); simpl; [now rewrite Hh | exact Hb].
Qed.

Lemma keeps_files_no_grad (body : M A) :
  keeps_files body -> keeps_files (with_no_grad body).
Proof.
  intros Hb w. unfold with_no_grad. specialize (Hb (set_grad false w)).
  destruct (body (set_grad false w)) as [r w1]; simpl in *. exact Hb.
Qed.

Variable Q : event -> Prop.

Lemma emits_ret (a : A) : emits Q (ret a).
Proof. intros w. exists []. simpl. now rewrite app_nil_r. Qed.

Lemma emits_lift (o : outcome A) : emits Q (lift o).
Proof. intros w. exists []. simpl. now rewrite app_nil_r. Qed.

Lemma emits_raise (e : exn) : emits Q (@raise A e).
Proof. intros w. exists []. simpl. now rewrite app_nil_r. Qed.

Lemma emits_bind (m : M A) (k : A -> M B) :
  emits Q m -> (forall a, emits Q (k a)) -> emits Q (bind m k).
Proof.
  intros Hm Hk w. unfold bind. destruct (Hm w) as (evs & Et & Hq).
  destruct (m w) as [[a | e] w1]; simpl in *.
  - destruct (Hk a w1) as (evs' & Et' & Hq').
    exists (evs ++ evs'). rewrite Et', Et, app_assoc.
    split; [reflexivity | now apply Forall_app].
  - now exists evs.
Qed.

Lemma emits_try (body : M A) (handler : exn -> M A) :
  emits Q body -> (forall e, emits Q (handler e)) ->
  emits Q (try_except_Exception body handler).
Proof.
  intros Hb Hh w. unfold try_except_Exception. destruct (Hb w) as (evs & Et & Hq).
  destruct (body w) as [[a | e] w1]; simpl in *; [now exists evs |].
  destruct (is_Exception e); simpl; [| now exists evs].
  destruct (Hh e w1) as (evs' & Et' & Hq').
  exists (evs ++ evs'). rewrite Et', Et, app_assoc.
  split; [reflexivity | now apply Forall_app].
Qed.

Lemma emits_no_grad (body : M A) :
  emits Q body -> emits Q (with_no_grad body).
Proof.
  intros Hb w. unfold with_no_grad. destruct (Hb (set_grad false w)) as (evs & Et & Hq).
  destruct (body (set_grad false w)) as [r w1]; simpl in *. now exists evs.
Qed.

End Frames.

Lemma keeps_files_emit (ev : event) : keeps_files (emit ev).
Proof. now intros w. Qed.

Lemma emits_emit (Q : event -> Prop) (ev : event) : Q ev -> emits Q (emit ev).
Proof. intros Hq w. exists [ev]. simpl. auto. Qed.

Lemma emits_if (Q : event -> Prop) {A : Type} (b : bool) (m1 m2 : M A) :
  emits Q m1 -> emits Q m2 -> emits Q (if b then m1 else m2).
Proof. now destruct b. Qed.

Lemma keeps_files_if {A : Type} (b : bool) (m1 m2 : M A) :
  keeps_files m1 -> keeps_files m2 -> keeps_files (if b then m1 else m2).
Proof. now destruct b. Qed.

Lemma keeps_files_reads {A : Type} (f : fs -> outcome A) : keeps_files (reads f).
Proof. now intros w. Qed.

Lemma emits_reads (Q : event -> Prop) {A : Type} (f : fs -> outcome A) :
  emits Q (reads f).
Proof. intros w. exists []. simpl. now rewrite app_nil_r. Qed.

Lemma keeps_files_print (line : string) : keeps_files (print line).
Proof. apply keeps_files_emit. Qed.

Lemma emits_print (Q : event -> Prop) (line : string) :
  Q (EvPrint line) -> emits Q (print line).
Proof. apply emits_emit. Qed.

Create HintDb frames.
#[export] Hint Resolve keeps_files_ret keeps_files_lift keeps_files_raise
  keeps_files_emit keeps_files_reads keeps_files_print emits_ret emits_lift
  emits_raise emits_reads emits_emit emits_print : frames.

(** Splits a frame goal along the structure of the program. *)
Ltac frame_step :=
  first
    [ apply keeps_files_bind; [| intros ?]
    | apply emits_bind; [| intros ?]
    | apply keeps_files_try; [| intros ?]
    | apply emits_try; [| intros ?]
    | apply keeps_files_no_grad
    | apply emits_no_grad
    | apply keeps_files_if
    | apply emits_if
    | solve [auto with frames] ].

Ltac frame := repeat frame_step.

(** ** Frames of the script's stages *)

Section StageFrames.

Variable H : host.

Lemma keeps_files_load_audio (path : string) (sr : Z) :
  keeps_files (load_audio H path sr).
Proof.
  unfold load_audio, librosa_load, librosa_resample. frame.
  destruct a as [audio orig_sr]. frame.
Qed.

Lemma emits_load_audio (Q : event -> Prop) (path : string) (sr : Z) :
  Q (EvDecode path) -> (forall r, Q (EvResample r sr)) ->
  emits Q (load_audio H path sr).
Proof.
  intros Hd Hr. unfold load_audio, librosa_load, librosa_resample. frame.
  destruct a as [audio orig_sr]. frame.
Qed.

Lemma keeps_files_model_transformation (self : RVCInference) (audio : ndarray)
    (t : tensor) : keeps_files (model_transformation self audio t).
Proof. unfold model_transformation. frame. Qed.

Lemma emits_model_transformation (Q : event -> Prop) (self : RVCInference)
    (audio : ndarray) (t : tensor) :
  (forall line, Q (EvPrint line)) -> emits Q (model_transformation self audio t).
Proof. intros Hp. unfold model_transformation. frame. Qed.

Lemma keeps_files_conversion_block (self : RVCInference) (audio : ndarray) :
  keeps_files (conversion_block H self audio).
Proof.
  unfold conversion_block, tensor_bind. frame.
Qed.

Lemma emits_conversion_block (Q : event -> Prop) (self : RVCInference)
    (audio : ndarray) :
  (forall line, Q (EvPrint line)) -> Q (EvTo (device self)) ->
  emits Q (conversion_block H self audio).
Proof.
  intros Hp Ht. unfold conversion_block, tensor_bind. frame.
Qed.

Lemma keeps_files_apply_pitch_shift (y : value) (p : Z) :
  keeps_files (apply_pitch_shift H y p).
Proof. unfold apply_pitch_shift, librosa_pitch_shift. frame. Qed.

Lemma emits_apply_pitch_shift (Q : event -> Prop) (y : value) (p : Z) :
  Q (EvPitchShift 16000 p) -> emits Q (apply_pitch_shift H y p).
Proof. intros Hq. unfold apply_pitch_shift, librosa_pitch_shift. frame. Qed.

Lemma emits_sf_write (Q : event -> Prop) (path : string) (data : value) (sr : Z) :
  Q (EvWrite path sr) -> emits Q (sf_write H path data sr).
Proof.
  intros Hq. unfold sf_write. frame. intros w.
  destruct (sf_write_impl H (w_fs w) path data sr) as [r files].
  exists []. simpl. now rewrite app_nil_r.
Qed.



End StageFrames.

(** ** Network extraction *)

Lemma dict_get_existsb (kvs : list (string * value)) (key : string) :
  existsb (fun kv => String.eqb (fst kv) key) kvs =
  match dict_get kvs key with Some _ => true | None => false end.
Proof.
  induction kvs as [| [k v] rest IH]; simpl; [reflexivity |].
  destruct (String.eqb k key); simpl; [reflexivity | exact IH].
Qed.

(** A mapping with a ["model"] field yields that field. *)
Lemma extract_network_field (kvs : list (string * value)) (net : value) :
  dict_get kvs "model" = Some net -> extract_network (VDict kvs) = Ret net.
Proof.
  intros E. unfold extract_network, py_contains, obind, py_getitem.
  now rewrite dict_get_existsb, E.
Qed.

(** A mapping without a ["model"] field is its own network. *)
Lemma extract_network_whole_mapping (kvs : list (string * value)) :
  dict_get kvs "model" = None -> extract_network (VDict kvs) = Ret (VDict kvs).
Proof.
  intros E. unfold extract_network, py_contains, obind.
  now rewrite dict_get_existsb, E.
Qed.

(** C2, at the failing input.  The claim is that extraction never fails and
    hands back a bare network object unchanged.  On a bare network object
    (an instance whose class has no container protocol, whatever its
    attributes) the membership test of line 41 itself raises [TypeError], so
    the [else] branch that would return the artifact is never reached. *)
Theorem extract_network_bare_object_raises (cls : string)
    (attrs : string -> outcome value) :
  extract_network (VObject cls attrs) = Raise (not_iterable (VObject cls attrs))
  /\ extract_network Ref.echo_net =
     Raise (MkExn TypeError "argument of type 'EchoNet' is not iterable").
Proof. split; reflexivity. Qed.

(** ** The pitch-shift stage *)

(** C7: with [pitch_shift = 0] the pitch-shift stage returns exactly the
    value it was given and does nothing else: no library call, no output,
    no change to the world. *)
Theorem pitch_shift_zero_identity (H : host) (output_audio : value) (w : world) :
  apply_pitch_shift H output_audio 0 w = (Ret output_audio, w).
Proof. reflexivity. Qed.

(** ** The conversion block *)

Section Conversion.

Variable H : host.

(** C4, amended: for a network without an [infer] operation, every input and
    every device to which the tensor of line 58 can be bound, conversion
    returns the input samples themselves and prints the passthrough
    warning: the [try] statement does so for every bound tensor, and the
    whole [with] block once its tensor is bound, with the binding and the
    warning as its only events. *)
Theorem no_infer_passthrough (self : RVCInference) (audio : ndarray) :
  py_hasattr (net_g self) "infer" = Ret false ->
  (forall t w,
     model_transformation self audio t w =
     (Ret (VArray audio), record (EvPrint passthrough_warning) w))
  /\ (forall t w,
       tensor_to_impl H (from_numpy_float audio) (device self) = Ret t ->
       conversion_block H self audio w =
       (Ret (VArray audio),
        record (EvPrint passthrough_warning) (record (EvTo (device self)) w))).
Proof.
  intros Hno.
  assert (Htry : forall t w,
     model_transformation self audio t w =
     (Ret (VArray audio), record (EvPrint passthrough_warning) w)).
  { intros t w. unfold model_transformation, try_except_Exception, bind, lift.
    now rewrite Hno. }
  split; [exact Htry |].
  intros t w Hto.
  unfold conversion_block, with_no_grad, tensor_bind, bind, emit, lift.
  rewrite Hto, Htry. reflexivity.
Qed.

(** C1, amended: once the tensor is bound, the block never lets an error
    (an exception derived from [Exception]) out.  It returns the input
    samples, or the samples extracted from what [infer] returned; the only
    exceptions that leave it are those outside [Exception]. *)
Theorem conversion_block_guard (self : RVCInference) (audio : ndarray)
    (w : world) (t : tensor) :
  tensor_to_impl H (from_numpy_float audio) (device self) = Ret t ->
  match fst (conversion_block H self audio w) with
  | Ret out =>
      out = VArray audio
      \/ exists output,
           py_call_method (net_g self) "infer" [unsqueeze0 t] = Ret output
           /\ extract_output output = Ret out
  | Raise e => is_Exception e = false
  end.
Proof.
  intros Hto.
  unfold conversion_block, with_no_grad, tensor_bind, bind, emit, lift.
  rewrite Hto.
  unfold model_transformation, try_except_Exception, bind, lift.
  destruct (py_hasattr (net_g self) "infer") as [[|] | e].
  - destruct (py_call_method (net_g self) "infer" [unsqueeze0 t]) as [output | e].
    + destruct (extract_output output) as [out | e] eqn:Eout.
      * simpl. right. exists output. now split.
      * destruct (is_Exception e) eqn:Ee; simpl; [now left | exact Ee].
    + destruct (is_Exception e) eqn:Ee; simpl; [now left | exact Ee].
  - simpl. now left.
  - destruct (is_Exception e) eqn:Ee; simpl; [now left | exact Ee].
Qed.

End Conversion.

(** ** Decoding *)

Section Decoding.

Variable H : host.

Lemma load_audio_at_rate (path : string) (sr : Z) (w w' : world) (audio : ndarray) :
  load_audio H path sr w = (Ret audio, w') -> at_rate H audio sr.
Proof.
  unfold load_audio, librosa_load, librosa_resample, bind, emit, reads, lift, ret.
  simpl.
  destruct (librosa_load_impl H (w_fs w) path) as [[decoded orig_sr] | e] eqn:Eload;
    [| discriminate].
  destruct (Z.eqb_spec orig_sr sr) as [-> | Hne]; simpl.
  - intros [= <- _]. now apply (rate_decoded H (w_fs w) path).
  - destruct (librosa_resample_impl H decoded orig_sr sr) as [resampled | e] eqn:Eres;
      [| discriminate].
    intros [= <- _].
    apply (rate_resampled H decoded resampled orig_sr sr); [| exact Eres].
    now apply (rate_decoded H (w_fs w) path).
Qed.

(** C6: for a file that [librosa.load] decodes to [audio] at native rate
    [orig_sr], and any target rate [sr]: if the rates are equal,
    [load_audio] returns [audio] itself and never calls the resampler; if
    they differ, its outcome is exactly the resampler's outcome on
    ([audio], [orig_sr], [sr]); and whatever it returns is at rate [sr]. *)
Theorem load_audio_target_rate (path : string) (sr : Z) (w : world)
    (audio : ndarray) (orig_sr : Z) :
  librosa_load_impl H (w_fs w) path = Ret (audio, orig_sr) ->
  (orig_sr = sr ->
   load_audio H path sr w = (Ret audio, record (EvDecode path) w))
  /\ (orig_sr <> sr ->
      load_audio H path sr w =
      (librosa_resample_impl H audio orig_sr sr,
       record (EvResample orig_sr sr) (record (EvDecode path) w)))
  /\ (forall resampled w',
        load_audio H path sr w = (Ret resampled, w') -> at_rate H resampled sr).
Proof.
  intros Eload. split; [| split].
  - intros ->.
    unfold load_audio, librosa_load, bind, emit, reads, ret. simpl.
    rewrite Eload, Z.eqb_refl. reflexivity.
  - intros Hne.
    unfold load_audio, librosa_load, librosa_resample, bind, emit, reads, lift, ret.
    simpl. rewrite Eload.
    destruct (Z.eqb_spec orig_sr sr) as [-> | _]; [contradiction |]. simpl.
    now destruct (librosa_resample_impl H audio orig_sr sr).
  - intros resampled w'. apply load_audio_at_rate.
Qed.

End Decoding.

(** ** The pipeline *)

Section Pipeline.

Variable H : host.

Lemma Forall_not_write_no_event (evs : list event) (path : string) (sr : Z) :
  Forall not_write evs -> ~ In (EvWrite path sr) evs.
Proof.
  intros Hall Hin. rewrite Forall_forall in Hall. exact (Hall _ Hin).
Qed.

(** What [convert] does once the conversion block has produced
    [output_audio]. *)
Lemma convert_after_block (self : RVCInference) (input_path output_path : string)
    (pitch_shift : Z) (f0_method : string) (w w0 w1 : world) (audio : ndarray)
    (output_audio : value) :
  load_audio H input_path 16000
    (record (EvPrint (converting_message input_path output_path)) w) = (Ret audio, w0) ->
  conversion_block H self audio w0 = (Ret output_audio, w1) ->
  convert H self input_path output_path pitch_shift f0_method w =
  postprocess H output_path output_audio pitch_shift w1.
Proof.
  intros Eload Eblock. unfold convert.
  rewrite (bind_Ret _ _ w (record (EvPrint (converting_message input_path output_path)) w) tt);
    [| reflexivity].
  rewrite (bind_Ret _ _ _ w0 audio Eload).
  now rewrite (bind_Ret _ _ _ w1 output_audio Eblock).
Qed.

(** The outcome of [save_output] is the outcome of [sf.write]. *)
Lemma save_output_run (output_path : string) (y : value) (w : world) :
  save_output H output_path y w =
  match sf_write_impl H (w_fs w) output_path y 16000 with
  | (Ret _, files) =>
      (Ret output_path,
       MkWorld files
         (w_trace w ++ [EvWrite output_path 16000; EvPrint (saved_message output_path)])
         (w_grad w))
  | (Raise e, files) =>
      (Raise e, MkWorld files (w_trace w ++ [EvWrite output_path 16000]) (w_grad w))
  end.
Proof.
  unfold save_output, save_audio, sf_write, bind, emit, print, ret, record. simpl.
  destruct (sf_write_impl H (w_fs w) output_path y 16000) as [[[] | e] files]; simpl.
  - unfold record. simpl. now rewrite <- app_assoc.
  - reflexivity.
Qed.

(** The part of a run before the pitch-shift stage never writes a file. *)
Lemma before_pitch_shift_frame (self : RVCInference) (input_path output_path : string)
    (w w0 w1 : world) (audio : ndarray) (output_audio : value) :
  load_audio H input_path 16000
    (record (EvPrint (converting_message input_path output_path)) w) = (Ret audio, w0) ->
  conversion_block H self audio w0 = (Ret output_audio, w1) ->
  w_fs w1 = w_fs w
  /\ exists evs, w_trace w1 = w_trace w ++ evs /\ Forall not_write evs.
Proof.
  intros Eload Eblock. split.
  - pose proof (keeps_files_conversion_block H self audio w0) as Kb.
    pose proof (keeps_files_load_audio H input_path 16000
                  (record (EvPrint (converting_message input_path output_path)) w)) as Kl.
    rewrite Eblock in Kb. rewrite Eload in Kl. simpl in *. now rewrite Kb, Kl.
  - destruct (emits_load_audio H not_write input_path 16000) with
      (w := record (EvPrint (converting_message input_path output_path)) w)
      as (evs1 & E1 & F1); try exact I; [intros r; exact I |].
    destruct (emits_conversion_block H not_write self audio) with (w := w0)
      as (evs2 & E2 & F2); try exact I; [intros line; exact I |].
    rewrite Eload in E1. rewrite Eblock in E2. simpl in *.
    exists ([EvPrint (converting_message input_path output_path)] ++ evs1 ++ evs2).
    split.
    + rewrite E2, E1. now rewrite <- !app_assoc.
    + apply Forall_app. split; [repeat constructor |]. now apply Forall_app.
Qed.

(** C5: when the pitch-shift step raises, [convert] raises that very
    exception; the run has then issued no write at all (the encode step is
    not reached) and the file system is what it was before the run. *)
Theorem pitch_error_aborts_before_write (self : RVCInference)
    (input_path output_path : string) (pitch_shift : Z) (f0_method : string)
    (w w0 w1 : world) (audio : ndarray) (output_audio : value) (e : exn) :
  load_audio H input_path 16000
    (record (EvPrint (converting_message input_path output_path)) w) = (Ret audio, w0) ->
  conversion_block H self audio w0 = (Ret output_audio, w1) ->
  pitch_shift <> 0 ->
  pitch_shift_impl H output_audio 16000 pitch_shift = Raise e ->
  convert H self input_path output_path pitch_shift f0_method w =
  (Raise e, record (EvPitchShift 16000 pitch_shift) w1)
  /\ w_fs (record (EvPitchShift 16000 pitch_shift) w1) = w_fs w
  /\ exists evs,
       w_trace (record (EvPitchShift 16000 pitch_shift) w1) = w_trace w ++ evs
       /\ forall path sr, ~ In (EvWrite path sr) evs.
Proof.
  intros Eload Eblock Hp Eshift.
  destruct (before_pitch_shift_frame self input_path output_path w w0 w1 audio
              output_audio Eload Eblock) as (Kf & evs & Et & Fw).
  split; [| split].
  - rewrite (convert_after_block self input_path output_path pitch_shift f0_method
               w w0 w1 audio output_audio Eload Eblock).
    unfold postprocess, apply_pitch_shift, librosa_pitch_shift, bind, emit, lift.
    destruct (Z.eqb_spec pitch_shift 0) as [-> | _]; [contradiction |]. simpl.
    now rewrite Eshift.
  - exact Kf.
  - exists (evs ++ [EvPitchShift 16000 pitch_shift]). simpl. split.
    + now rewrite Et, app_assoc.
    + intros path sr. apply Forall_not_write_no_event.
      apply Forall_app. split; [exact Fw | repeat constructor].
Qed.

(** C3, amended: when the [infer] call raises an error, the block returns
    the input samples themselves after printing the conversion-failure
    line, and [convert] goes on with the pitch-shift stage and the encode on
    those samples; when these two later stages succeed it returns the output
    path with the file written. *)
Theorem inference_error_passthrough (self : RVCInference)
    (input_path output_path : string) (pitch_shift : Z) (f0_method : string)
    (w w0 : world) (audio : ndarray) (t : tensor) (infer : value) (e : exn) :
  load_audio H input_path 16000
    (record (EvPrint (converting_message input_path output_path)) w) = (Ret audio, w0) ->
  tensor_to_impl H (from_numpy_float audio) (device self) = Ret t ->
  py_getattr (net_g self) "infer" = Ret infer ->
  py_call infer [unsqueeze0 t] = Raise e ->
  is_Exception e = true ->
  conversion_block H self audio w0 =
  (Ret (VArray audio),
   record (EvPrint (conversion_error e)) (record (EvTo (device self)) w0))
  /\ convert H self input_path output_path pitch_shift f0_method w =
     postprocess H output_path (VArray audio) pitch_shift
       (record (EvPrint (conversion_error e)) (record (EvTo (device self)) w0))
  /\ (forall shifted w1 files,
        apply_pitch_shift H (VArray audio) pitch_shift
          (record (EvPrint (conversion_error e)) (record (EvTo (device self)) w0))
        = (Ret shifted, w1) ->
        sf_write_impl H (w_fs w1) output_path shifted 16000 = (Ret tt, files) ->
        convert H self input_path output_path pitch_shift f0_method w =
        (Ret output_path,
         MkWorld files
           (w_trace w1 ++ [EvWrite output_path 16000; EvPrint (saved_message output_path)])
           (w_grad w1))).
Proof.
  intros Eload Eto Eattr Ecall Ee.
  assert (Eblock : conversion_block H self audio w0 =
    (Ret (VArray audio),
     record (EvPrint (conversion_error e)) (record (EvTo (device self)) w0))).
  { unfold conversion_block, with_no_grad, tensor_bind, bind, emit, lift.
    rewrite Eto.
    unfold model_transformation, try_except_Exception, bind, lift, py_hasattr,
      py_call_method, obind.
    rewrite Eattr, Ecall, Ee. reflexivity. }
  pose proof (convert_after_block self input_path output_path pitch_shift f0_method
                w w0 _ audio _ Eload Eblock) as Econv.
  split; [exact Eblock | split; [exact Econv |]].
  intros shifted w1 files Eshift Ewrite.
  rewrite Econv. unfold postprocess.
  rewrite (bind_Ret _ _ _ w1 shifted Eshift), save_output_run.
  now rewrite Ewrite.
Qed.

(** C10: with [pitch_shift = 0] the pitch-shift stage is a no-op that cannot
    raise, whatever the conversion output (an empty array included), so
    [convert] goes straight from the conversion block to the encode: its
    outcome is the outcome of [sf.write] on that very output. *)
Theorem zero_pitch_goes_to_encode (self : RVCInference)
    (input_path output_path : string) (f0_method : string)
    (w w0 w1 : world) (audio : ndarray) (output_audio : value) :
  load_audio H input_path 16000
    (record (EvPrint (converting_message input_path output_path)) w) = (Ret audio, w0) ->
  conversion_block H self audio w0 = (Ret output_audio, w1) ->
  apply_pitch_shift H output_audio 0 w1 = (Ret output_audio, w1)
  /\ convert H self input_path output_path 0 f0_method w =
     save_output H output_path output_audio w1
  /\ convert H self input_path output_path 0 f0_method w =
     match sf_write_impl H (w_fs w1) output_path output_audio 16000 with
     | (Ret _, files) =>
         (Ret output_path,
          MkWorld files
            (w_trace w1 ++ [EvWrite output_path 16000; EvPrint (saved_message output_path)])
            (w_grad w1))
     | (Raise e, files) =>
         (Raise e, MkWorld files (w_trace w1 ++ [EvWrite output_path 16000]) (w_grad w1))
     end.
Proof.
  intros Eload Eblock.
  pose proof (convert_after_block self input_path output_path 0 f0_method
                w w0 w1 audio output_audio Eload Eblock) as Econv.
  split; [reflexivity | split].
  - now rewrite Econv.
  - rewrite Econv. apply save_output_run.
Qed.

End Pipeline.

(** ** Sample rates and the index path *)

Section Invariants.

Variable H : host.





Lemma run_inference_ignores_index (model_file : string) (i1 i2 : option string)
    (input_path output_path : string) (pitch : Z) (dev : string) (w : world) :
  run_inference H (MkArgs model_file i1 input_path output_path pitch dev) w =
  run_inference H (MkArgs model_file i2 input_path output_path pitch dev) w.
Proof.
  unfold run_inference, RVCInference_init, torch_load, print, bind, emit, reads,
    lift, ret.
  simpl.
  destruct (torch_load_impl H (w_fs w) model_file dev) as [artifact | e];
    [| reflexivity].
  destruct (extract_network artifact) as [net | e]; reflexivity.
Qed.

(** C9: the index path does not influence a run.  Two invocations that
    differ only in it (given or not, whatever its value) have the same
    outcome and leave the same world: same files, same output, same
    events; this holds for [convert] on two objects that differ only in the
    stored index path, for the construct-and-convert step, and for [main].
    The path is stored in the object, and that is all. *)
Theorem index_path_noninterference (model_file : string) (i1 i2 : option string)
    (input_path output_path : string) (pitch : Z) (dev : string) (w : world) :
  main H (MkArgs model_file i1 input_path output_path pitch dev) w =
  main H (MkArgs model_file i2 input_path output_path pitch dev) w
  /\ run_inference H (MkArgs model_file i1 input_path output_path pitch dev) w =
     run_inference H (MkArgs model_file i2 input_path output_path pitch dev) w
  /\ (forall mp artifact net f0_method,
        convert H (MkRVC dev mp i1 artifact net) input_path output_path pitch f0_method w =
        convert H (MkRVC dev mp i2 artifact net) input_path output_path pitch f0_method w)
  /\ match fst (RVCInference_init H model_file i1 dev w) with
     | Ret self => index_path self = i1
     | Raise _ => True
     end.
Proof.
  split; [| split; [| split]].
  - unfold main, bind. simpl arg_model. simpl arg_input.
    destruct (exit_unless_exists "Model" model_file w) as [[[] | e] w1];
      [| reflexivity].
    destruct (exit_unless_exists "Input file" input_path w1) as [[[] | e] w2];
      [| reflexivity].
    now rewrite (run_inference_ignores_index model_file i1 i2).
  - apply run_inference_ignores_index.
  - reflexivity.
  - unfold RVCInference_init, torch_load, print, bind, emit, reads, lift, ret.
    simpl.
    destruct (torch_load_impl H (w_fs w) model_file dev) as [artifact | e];
      [| exact I].
    destruct (extract_network artifact) as [net | e]; [reflexivity | exact I].
Qed.

End Invariants.

(** ** Concrete runs on the reference host *)

Import Ref.

(** The whole script on a bundle whose network echoes its input: the 8 kHz
    clip is resampled, converted and written at 16 kHz. *)
Example main_echo_run :
  fst (main ref_host (MkArgs "echo.pth" None "in8k.wav" "out.wav" 0 "cpu") (start disk))
  = Ret tt
  /\ w_trace (snd (main ref_host (MkArgs "echo.pth" None "in8k.wav" "out.wav" 0 "cpu")
                     (start disk)))
     = [EvPrint "Loading model: echo.pth"; EvTorchLoad "echo.pth" "cpu";
        EvPrint "Model loaded successfully";
        EvPrint "Converting: in8k.wav -> out.wav"; EvDecode "in8k.wav";
        EvResample 8000 16000; EvTo "cpu"; EvWrite "out.wav" 16000;
        EvPrint "Saved: out.wav"; EvPrint "Done!"]
  /\ option_map decode_audio
       (w_fs (snd (main ref_host (MkArgs "echo.pth" None "in8k.wav" "out.wav" 0 "cpu")
                     (start disk))) "out.wav")
     = Some (Ret (MkArray [4%nat] [1065353216; 1065353216; 1056964608; 1056964608],
                  16000)).
Proof. repeat split; reflexivity. Qed.

(** A missing model file stops [main] before anything is loaded. *)
Example main_missing_model :
  main ref_host (MkArgs "nope.pth" None "in8k.wav" "out.wav" 0 "cpu") (start disk)
  = (Raise (MkExn SystemExit "1"),
     record (EvPrint "Error: Model not found: nope.pth") (start disk)).
Proof. reflexivity. Qed.

(** A saved bare network object cannot even be constructed into an
    [RVCInference]: line 41 raises. *)
Example init_bare_network :
  fst (RVCInference_init ref_host "bare.pth" None "cpu"
         (start (put disk "bare.pth" [Byte.x02])))
  = Raise (MkExn TypeError "argument of type 'EchoNet' is not iterable").
Proof. reflexivity. Qed.

(** C1, counterexample: on a CPU-only host the block, asked to bind its
    tensor to ["cuda"], lets the binding's [RuntimeError] out (line 58 is
    before the [try]); and an [infer] that raises [SystemExit] is not caught
    by [except Exception]. *)
Lemma conversion_block_lets_exceptions_out :
  fst (conversion_block ref_host (rvc "cuda" echo_net) clip16k (start disk))
  = Raise (MkExn RuntimeError "No CUDA GPUs are available")
  /\ fst (conversion_block ref_host (rvc "cpu" quitting_net) clip16k (start disk))
     = Raise (MkExn SystemExit "0").
Proof. split; reflexivity. Qed.

Lemma conversion_block_guard_witness :
  tensor_to_impl ref_host (from_numpy_float clip16k) (device (rvc "cpu" echo_net))
  = Ret (from_numpy_float clip16k)
  /\ match fst (conversion_block ref_host (rvc "cpu" echo_net) clip16k (start disk)) with
     | Ret out =>
         out = VArray clip16k
         \/ exists output,
              py_call_method (net_g (rvc "cpu" echo_net)) "infer"
                [unsqueeze0 (from_numpy_float clip16k)] = Ret output
              /\ extract_output output = Ret out
     | Raise e => is_Exception e = false
     end.
Proof.
  split; [reflexivity |].
  apply (conversion_block_guard ref_host (rvc "cpu" echo_net) clip16k (start disk)
           (from_numpy_float clip16k)).
  reflexivity.
Defined.

(** C3, counterexample: [infer] raises, the block falls back to the input
    and says so, and the run still does not reach the end.  With an output
    path that cannot be opened for writing, the write raises; with a pitch
    shift of 20000 semitones, whose stretch rate is 0.0, the pitch-shift
    stage raises and no write is issued.  No output file exists in either
    run.  And an [infer] that raises outside [Exception] is not caught at
    all. *)
Lemma inference_error_then_hard_error :
  py_call_method broken_net "infer" [unsqueeze0 (from_numpy_float clip16k)]
  = Raise size_mismatch
  /\ fst (convert ref_host (rvc "cpu" broken_net) "in16k.wav" "/proc/out.wav" 0 "dio"
            (start disk))
     = Raise (cannot_open "/proc/out.wav")
  /\ w_trace (snd (convert ref_host (rvc "cpu" broken_net) "in16k.wav" "/proc/out.wav" 0
                     "dio" (start disk)))
     = [EvPrint "Converting: in16k.wav -> /proc/out.wav"; EvDecode "in16k.wav";
        EvTo "cpu"; EvPrint "Conversion error: size mismatch";
        EvWrite "/proc/out.wav" 16000]
  /\ w_fs (snd (convert ref_host (rvc "cpu" broken_net) "in16k.wav" "/proc/out.wav" 0
                  "dio" (start disk))) "/proc/out.wav"
     = None
  /\ fst (convert ref_host (rvc "cpu" broken_net) "in16k.wav" "out.wav" 20000 "dio"
            (start disk))
     = Raise bad_rate
  /\ w_trace (snd (convert ref_host (rvc "cpu" broken_net) "in16k.wav" "out.wav" 20000
                     "dio" (start disk)))
     = [EvPrint "Converting: in16k.wav -> out.wav"; EvDecode "in16k.wav"; EvTo "cpu";
        EvPrint "Conversion error: size mismatch"; EvPitchShift 16000 20000]
  /\ w_fs (snd (convert ref_host (rvc "cpu" broken_net) "in16k.wav" "out.wav" 20000
                  "dio" (start disk))) "out.wav"
     = None
  /\ convert ref_host (rvc "cpu" quitting_net) "in16k.wav" "out.wav" 0 "dio" (start disk)
     = (Raise (MkExn SystemExit "0"), record (EvTo "cpu") (decoded "in16k.wav" "out.wav")).
Proof. repeat split; reflexivity. Qed.

Lemma inference_error_passthrough_witness :
  (load_audio ref_host "in16k.wav" 16000
     (record (EvPrint (converting_message "in16k.wav" "out.wav")) (start disk))
   = (Ret clip16k, decoded "in16k.wav" "out.wav")
   /\ tensor_to_impl ref_host (from_numpy_float clip16k) (device (rvc "cpu" broken_net))
      = Ret (from_numpy_float clip16k)
   /\ py_getattr (net_g (rvc "cpu" broken_net)) "infer" = Ret broken_infer
   /\ py_call broken_infer [unsqueeze0 (from_numpy_float clip16k)] = Raise size_mismatch
   /\ is_Exception size_mismatch = true)
  /\ fst (convert ref_host (rvc "cpu" broken_net) "in16k.wav" "out.wav" 0 "dio" (start disk))
     = Ret "out.wav"
  /\ w_fs (snd (convert ref_host (rvc "cpu" broken_net) "in16k.wav" "out.wav" 0 "dio"
                  (start disk))) "out.wav"
     = Some (encode_audio clip16k 16000).
Proof.
  split; [repeat split; reflexivity |].
  destruct (inference_error_passthrough ref_host (rvc "cpu" broken_net)
              "in16k.wav" "out.wav" 0 "dio" (start disk) (decoded "in16k.wav" "out.wav")
              clip16k (from_numpy_float clip16k) broken_infer size_mismatch
              eq_refl eq_refl eq_refl eq_refl eq_refl) as (_ & _ & Hdone).
  rewrite (Hdone (VArray clip16k)
             (record (EvPrint (conversion_error size_mismatch))
                (record (EvTo "cpu") (decoded "in16k.wav" "out.wav")))
             (put disk "out.wav" (encode_audio clip16k 16000))
             eq_refl eq_refl).
  split; reflexivity.
Defined.

(** C4, counterexample: a network without [infer], on a CPU-only host, asked
    for the device ["cuda"].  The tensor binding of line 58 comes before the
    probe of line 63 and raises: nothing is returned and no warning is
    printed. *)
Lemma no_infer_unbindable_target :
  py_hasattr (net_g (rvc "cuda" plain_net)) "infer" = Ret false
  /\ conversion_block ref_host (rvc "cuda" plain_net) clip16k (start disk)
     = (Raise (MkExn RuntimeError "No CUDA GPUs are available"),
        record (EvTo "cuda") (start disk))
  /\ fst (convert ref_host (rvc "cuda" plain_net) "in16k.wav" "out.wav" 0 "dio" (start disk))
     = Raise (MkExn RuntimeError "No CUDA GPUs are available")
  /\ w_trace (snd (convert ref_host (rvc "cuda" plain_net) "in16k.wav" "out.wav" 0 "dio"
                     (start disk)))
     = [EvPrint "Converting: in16k.wav -> out.wav"; EvDecode "in16k.wav"; EvTo "cuda"].
Proof. repeat split; reflexivity. Qed.



Lemma no_infer_passthrough_witness :
  py_hasattr (net_g (rvc "cpu" plain_net)) "infer" = Ret false
  /\ conversion_block ref_host (rvc "cpu" plain_net) clip16k (start disk)
     = (Ret (VArray clip16k),
        record (EvPrint passthrough_warning) (record (EvTo "cpu") (start disk))).
Proof.
  split; [reflexivity |].
  apply (proj2 (no_infer_passthrough ref_host (rvc "cpu" plain_net) clip16k eq_refl)
           (from_numpy_float clip16k) (start disk)).
  reflexivity.
Defined.

Lemma pitch_error_aborts_before_write_witness :
  (load_audio ref_host "in16k.wav" 16000
     (record (EvPrint (converting_message "in16k.wav" "out.wav")) (start disk))
   = (Ret clip16k, decoded "in16k.wav" "out.wav")
   /\ conversion_block ref_host (rvc "cpu" plain_net) clip16k (decoded "in16k.wav" "out.wav")
      = (Ret (VArray clip16k),
         record (EvPrint passthrough_warning)
           (record (EvTo "cpu") (decoded "in16k.wav" "out.wav")))
   /\ 20000 <> 0
   /\ pitch_shift_impl ref_host (VArray clip16k) 16000 20000 = Raise bad_rate)
  /\ fst (convert ref_host (rvc "cpu" plain_net) "in16k.wav" "out.wav" 20000 "dio"
            (start disk))
     = Raise bad_rate.
Proof.
  split; [repeat split; try reflexivity; discriminate |].
  destruct (pitch_error_aborts_before_write ref_host (rvc "cpu" plain_net)
              "in16k.wav" "out.wav" 20000 "dio" (start disk)
              (decoded "in16k.wav" "out.wav")
              (record (EvPrint passthrough_warning)
                 (record (EvTo "cpu") (decoded "in16k.wav" "out.wav")))
              clip16k (VArray clip16k) bad_rate
              eq_refl eq_refl ltac:(discriminate) eq_refl) as (Hrun & _).
  now rewrite Hrun.
Defined.

Lemma load_audio_target_rate_witness :
  librosa_load_impl ref_host (w_fs (start disk)) "in8k.wav" = Ret (clip8k, 8000)
  /\ at_rate ref_host
       (MkArray [4%nat] [1065353216; 1065353216; 1056964608; 1056964608]) 16000.
Proof.
  split; [reflexivity |].
  apply (proj2 (proj2 (load_audio_target_rate ref_host "in8k.wav" 16000 (start disk)
                         clip8k 8000 eq_refl))
           _ (record (EvResample 8000 16000) (record (EvDecode "in8k.wav") (start disk)))).
  reflexivity.
Defined.

Lemma zero_pitch_goes_to_encode_witness :
  (load_audio ref_host "empty.wav" 16000
     (record (EvPrint (converting_message "empty.wav" "out.wav")) (start disk))
   = (Ret silence, decoded "empty.wav" "out.wav")
   /\ conversion_block ref_host (rvc "cpu" plain_net) silence (decoded "empty.wav" "out.wav")
      = (Ret (VArray silence),
         record (EvPrint passthrough_warning)
           (record (EvTo "cpu") (decoded "empty.wav" "out.wav"))))
  /\ fst (convert ref_host (rvc "cpu" plain_net) "empty.wav" "out.wav" 0 "dio" (start disk))
     = Ret "out.wav"
  /\ w_fs (snd (convert ref_host (rvc "cpu" plain_net) "empty.wav" "out.wav" 0 "dio"
                  (start disk))) "out.wav"
     = Some (encode_audio silence 16000).
Proof.
  split; [split; reflexivity |].
  destruct (zero_pitch_goes_to_encode ref_host (rvc "cpu" plain_net)
              "empty.wav" "out.wav" "dio" (start disk) (decoded "empty.wav" "out.wav")
              (record (EvPrint passthrough_warning)
                 (record (EvTo "cpu") (decoded "empty.wav" "out.wav")))
              silence (VArray silence) eq_refl eq_refl) as (_ & _ & Hrun).
  rewrite Hrun. split; reflexivity.
Defined.

(** * Further properties of the script *)

(** ** Running the monad, backwards *)

Lemma bind_Ret_inv {A B : Type} (m : M A) (k : A -> M B) (w w' : world) (b : B) :
  bind m k w = (Ret b, w') ->
  exists a w1, m w = (Ret a, w1) /\ k a w1 = (Ret b, w').
Proof.
  unfold bind. destruct (m w) as [[a | e] w1]; intros E; [eauto | discriminate].
Qed.

Lemma emits_run (Q : event -> Prop) {A : Type} (m : M A) (w w' : world)
    (r : outcome A) :
  emits Q m -> m w = (r, w') ->
  exists evs, w_trace w' = w_trace w ++ evs /\ Forall Q evs.
Proof. intros Hm E. specialize (Hm w). now rewrite E in Hm. Qed.

Lemma keeps_files_run {A : Type} (m : M A) (w w' : world) (r : outcome A) :
  keeps_files m -> m w = (r, w') -> w_fs w' = w_fs w.
Proof. intros Hm E. specialize (Hm w). now rewrite E in Hm. Qed.

(** ** Network extraction, continued *)

Lemma extract_network_field_or_whole (kvs : list (string * value)) :
  extract_network (VDict kvs) =
  Ret (match dict_get kvs "model" with
       | Some net => net
       | None => VDict kvs
       end).
Proof.
  destruct (dict_get kvs "model") as [net |] eqn:E.
  - now apply extract_network_field.
  - now apply extract_network_whole_mapping.
Qed.

(** X1: on a keyed mapping, extraction always succeeds: it is the value
    under ["model"] when the key is there, and the mapping itself when the
    key is missing. *)
Theorem extract_network_mapping (kvs : list (string * value)) :
  extract_network (VDict kvs) =
  Ret (match dict_get kvs "model" with
       | Some net => net
       | None => VDict kvs
       end).
Proof. apply extract_network_field_or_whole. Qed.

(** X2: whenever extraction succeeds, the network is the artifact itself or
    the ["model"] entry of an artifact that is a mapping; nothing else is
    ever taken for the network.  And a list that holds the string ["model"],
    or a string that contains it, passes the test of line 41 and makes the
    subscript of line 42 raise [TypeError]. *)
Theorem extract_network_result :
  (forall artifact net,
     extract_network artifact = Ret net ->
     net = artifact
     \/ exists kvs, artifact = VDict kvs /\ dict_get kvs "model" = Some net)
  /\ (forall xs,
        existsb (is_str "model") xs = true ->
        extract_network (VList xs) =
        Raise (MkExn TypeError "list indices must be integers or slices, not str"))
  /\ (forall s,
        is_substring "model" s = true ->
        extract_network (VStr s) =
        Raise (MkExn TypeError "string indices must be integers")).
Proof.
  split; [| split].
  - intros artifact net.
    destruct artifact as [| n | s | xs | kvs | a | t | k sh | f | cls attrs];
      unfold extract_network; try discriminate.
    + unfold py_contains, obind, py_getitem.
      destruct (is_substring "model" s); [discriminate | intros [= <-]; now left].
    + unfold py_contains, obind, py_getitem.
      destruct (existsb (is_str "model") xs); [discriminate | intros [= <-]; now left].
    + fold (extract_network (VDict kvs)). rewrite extract_network_field_or_whole.
      destruct (dict_get kvs "model") as [v |] eqn:E; intros [= <-].
      * right. now exists kvs.
      * now left.
    + unfold py_contains, obind. intros [= <-]. now left.
  - intros xs Hin. unfold extract_network, py_contains, obind, py_getitem.
    now rewrite Hin.
  - intros s Hin. unfold extract_network, py_contains, obind, py_getitem.
    now rewrite Hin.
Qed.

(** ** What the conversion block returns *)

Lemma drop_unit_dims_none (shape : list nat) :
  Forall (fun d => d <> 1%nat) shape -> drop_unit_dims shape = shape.
Proof.
  induction 1 as [| d rest Hd _ IH]; [reflexivity |].
  unfold drop_unit_dims in *. simpl.
  destruct (Nat.eqb_spec d 1) as [-> | _]; [contradiction |]. simpl. now rewrite IH.
Qed.

Lemma extract_output_tensor (t : tensor) :
  extract_output (VTensor t) =
  Ret (VArray (MkArray (drop_unit_dims (t_shape t)) (t_data t))).
Proof. reflexivity. Qed.

Lemma extract_output_plain (output : value) :
  may_extract output = false ->
  exists e, extract_output output = Raise e /\ is_AttributeError e = true.
Proof.
  destruct output; try discriminate; intros _; eexists; split; reflexivity.
Qed.

Lemma AttributeError_is_Exception (e : exn) :
  is_AttributeError e = true -> is_Exception e = true.
Proof.
  unfold is_AttributeError, is_Exception. now destruct (exn_cls e).
Qed.

Lemma builtin_has_no_infer (v : value) :
  is_instance v = false -> py_hasattr v "infer" = Ret false.
Proof. destruct v; try discriminate; reflexivity. Qed.

Lemma tensor_output_run (self : RVCInference) (audio : ndarray)
    (t : tensor) (infer : value) (result : tensor) (w : world) :
  py_getattr (net_g self) "infer" = Ret infer ->
  py_call infer [unsqueeze0 t] = Ret (VTensor result) ->
  model_transformation self audio t w =
  (Ret (VArray (MkArray (drop_unit_dims (t_shape result)) (t_data result))), w).
Proof.
  intros Eattr Ecall.
  unfold model_transformation, try_except_Exception, bind, lift, py_hasattr,
    py_call_method, obind.
  rewrite Eattr, Ecall.
  change (match extract_output (VTensor result) with
          | Ret a => (Ret a, w)
          | Raise e =>
              if is_Exception e
              then bind (print (conversion_error e)) (fun _ => ret (VArray audio)) w
              else (Raise e, w)
          end = (Ret (VArray (MkArray (drop_unit_dims (t_shape result)) (t_data result))), w)).
  now rewrite extract_output_tensor.
Qed.

Lemma extracted_output_run (self : RVCInference) (audio : ndarray)
    (t : tensor) (infer output y : value) (w : world) :
  py_getattr (net_g self) "infer" = Ret infer ->
  py_call infer [unsqueeze0 t] = Ret output ->
  extract_output output = Ret y ->
  model_transformation self audio t w = (Ret y, w).
Proof.
  intros Eattr Ecall Eout.
  unfold model_transformation, try_except_Exception, bind, lift, py_hasattr,
    py_call_method, obind.
  rewrite Eattr, Ecall.
  change (match extract_output output with
          | Ret a => (Ret a, w)
          | Raise e =>
              if is_Exception e
              then bind (print (conversion_error e)) (fun _ => ret (VArray audio)) w
              else (Raise e, w)
          end = (Ret y, w)).
  now rewrite Eout.
Qed.

Lemma failed_extraction_run (self : RVCInference) (audio : ndarray)
    (t : tensor) (infer output : value) (e : exn) (w : world) :
  py_getattr (net_g self) "infer" = Ret infer ->
  py_call infer [unsqueeze0 t] = Ret output ->
  is_Exception e = true ->
  extract_output output = Raise e ->
  model_transformation self audio t w =
  (Ret (VArray audio), record (EvPrint (conversion_error e)) w).
Proof.
  intros Eattr Ecall He Eout.
  unfold model_transformation, try_except_Exception, bind, lift, py_hasattr,
    py_call_method, obind.
  rewrite Eattr, Ecall.
  change (match extract_output output with
          | Ret a => (Ret a, w)
          | Raise e0 =>
              if is_Exception e0
              then bind (print (conversion_error e0)) (fun _ => ret (VArray audio)) w
              else (Raise e0, w)
          end = (Ret (VArray audio), record (EvPrint (conversion_error e)) w)).
  rewrite Eout, He. reflexivity.
Qed.

Section Outputs.

Variable H : host.

(** X3: when [infer] returns a tensor that the chain of line 65 cannot turn
    into an array (a bfloat16, sparse or conjugate tensor, which [numpy()]
    refuses, or a meta tensor, which [cpu()] cannot copy), the exception is
    caught: the input samples come back and the conversion-error line is
    printed. *)
Theorem unviewable_tensor_passthrough (self : RVCInference) (audio : ndarray)
    (t : tensor) (infer : value) (kind : tensor_kind) (shape : list nat) (w : world) :
  py_getattr (net_g self) "infer" = Ret infer ->
  py_call infer [unsqueeze0 t] = Ret (VOtherTensor kind shape) ->
  exists e,
    is_Exception e = true
    /\ extract_output (VOtherTensor kind shape) = Raise e
    /\ model_transformation self audio t w =
       (Ret (VArray audio), record (EvPrint (conversion_error e)) w).
Proof.
  intros Eattr Ecall.
  assert (Hout : exists e, is_Exception e = true
                           /\ extract_output (VOtherTensor kind shape) = Raise e)
    by (destruct kind; eexists; (split; [| reflexivity]); reflexivity).
  destruct Hout as (e & He & Eout).
  exists e. split; [exact He | split; [exact Eout |]].
  now apply (failed_extraction_run self audio t infer (VOtherTensor kind shape)).
Qed.

(** X4: when [infer] returns something that is no tensor (a list, a dict,
    [None], a number, a string, a NumPy array, a function), the extraction
    of line 65 raises [AttributeError], which the handler turns into a
    passthrough: the input samples come back and the conversion-error line
    is printed. *)
Theorem non_tensor_output_passthrough (self : RVCInference) (audio : ndarray)
    (t : tensor) (infer output : value) (w : world) :
  py_getattr (net_g self) "infer" = Ret infer ->
  py_call infer [unsqueeze0 t] = Ret output ->
  may_extract output = false ->
  exists e,
    is_AttributeError e = true
    /\ model_transformation self audio t w =
       (Ret (VArray audio), record (EvPrint (conversion_error e)) w).
Proof.
  intros Eattr Ecall Hplain.
  destruct (extract_output_plain output Hplain) as (e & Eout & Hattr).
  exists e. split; [exact Hattr |].
  unfold model_transformation, try_except_Exception, bind, lift, py_hasattr,
    py_call_method, obind.
  rewrite Eattr, Ecall.
  change (match extract_output output with
          | Ret a => (Ret a, w)
          | Raise e0 =>
              if is_Exception e0
              then bind (print (conversion_error e0)) (fun _ => ret (VArray audio)) w
              else (Raise e0, w)
          end = (Ret (VArray audio), record (EvPrint (conversion_error e)) w)).
  rewrite Eout, (AttributeError_is_Exception e Hattr). reflexivity.
Qed.

(** X5: round trip through a network that returns its argument, on a host
    whose binding keeps shape and data.  The block gives back the data with
    the shape stripped of its dimensions of size 1 ([unsqueeze(0)] adds one,
    [squeeze()] removes them all): the very input array when no dimension
    of the input is 1, but a 0-dimensional array for a one-sample clip. *)
Theorem echo_round_trip (self : RVCInference) (audio : ndarray) (t : tensor)
    (infer : value) (w : world) :
  tensor_to_impl H (from_numpy_float audio) (device self) = Ret t ->
  t_shape t = a_shape audio ->
  t_data t = a_data audio ->
  py_getattr (net_g self) "infer" = Ret infer ->
  py_call infer [unsqueeze0 t] = Ret (VTensor (unsqueeze0 t)) ->
  conversion_block H self audio w =
  (Ret (VArray (MkArray (drop_unit_dims (a_shape audio)) (a_data audio))),
   record (EvTo (device self)) w)
  /\ (Forall (fun d => d <> 1%nat) (a_shape audio) ->
      conversion_block H self audio w = (Ret (VArray audio), record (EvTo (device self)) w))
  /\ (a_shape audio = [1%nat] ->
      conversion_block H self audio w =
      (Ret (VArray (MkArray [] (a_data audio))), record (EvTo (device self)) w)).
Proof.
  intros Eto Eshape Edata Eattr Ecall.
  assert (Eblock : conversion_block H self audio w =
    (Ret (VArray (MkArray (drop_unit_dims (a_shape audio)) (a_data audio))),
     record (EvTo (device self)) w)).
  { unfold conversion_block, with_no_grad, tensor_bind, bind, emit, lift.
    rewrite Eto.
    rewrite (tensor_output_run self audio t infer (unsqueeze0 t)
               (record (EvTo (device self)) (set_grad false w)) Eattr Ecall).
    simpl. rewrite Eshape, Edata. reflexivity. }
  split; [exact Eblock | split].
  - intros Hno. rewrite Eblock, (drop_unit_dims_none _ Hno). now destruct audio.
  - intros E1. rewrite Eblock, E1. reflexivity.
Qed.

(** X6: no silent passthrough.  Whenever the block returns, its tensor was
    bound, and either nothing was printed and the value is the one
    extracted from what [infer] returned, or the value is the input array
    and exactly one line was printed: the passthrough warning or a
    conversion-error line. *)
Theorem passthrough_is_signalled (self : RVCInference) (audio : ndarray)
    (w w' : world) (out : value) :
  conversion_block H self audio w = (Ret out, w') ->
  exists t,
    tensor_to_impl H (from_numpy_float audio) (device self) = Ret t
    /\ ((w' = record (EvTo (device self)) w
         /\ exists output,
              py_call_method (net_g self) "infer" [unsqueeze0 t] = Ret output
              /\ extract_output output = Ret out)
        \/ (out = VArray audio
            /\ exists line,
                 w' = record (EvPrint line) (record (EvTo (device self)) w)
                 /\ (line = passthrough_warning
                     \/ exists e, is_Exception e = true /\ line = conversion_error e))).
Proof.
  unfold conversion_block, with_no_grad, tensor_bind, bind, emit, lift.
  destruct (tensor_to_impl H (from_numpy_float audio) (device self)) as [t | e];
    [| discriminate].
  unfold model_transformation, try_except_Exception, bind, lift.
  intros E. exists t. split; [reflexivity |].
  destruct (py_hasattr (net_g self) "infer") as [[|] | e].
  - destruct (py_call_method (net_g self) "infer" [unsqueeze0 t]) as [output | e].
    + destruct (extract_output output) as [v | e] eqn:Eout.
      * injection E as <- <-. left. split; [reflexivity |]. now exists output.
      * destruct (is_Exception e) eqn:Ee; [| discriminate].
        injection E as <- <-. right. split; [reflexivity |].
        eexists. split; [reflexivity |]. right. now exists e.
    + destruct (is_Exception e) eqn:Ee; [| discriminate].
      injection E as <- <-. right. split; [reflexivity |].
      eexists. split; [reflexivity |]. right. now exists e.
  - injection E as <- <-. right. split; [reflexivity |].
    eexists. split; [reflexivity |]. now left.
  - destruct (is_Exception e) eqn:Ee; [| discriminate].
    injection E as <- <-. right. split; [reflexivity |].
    eexists. split; [reflexivity |]. right. now exists e.
Qed.

End Outputs.

(** ** Construction, validation and the whole run *)

Section Runs.

Variable H : host.

Lemma init_run (mp : string) (i : option string) (d : string) (w : world) :
  RVCInference_init H mp i d w =
  match torch_load_impl H (w_fs w) mp d with
  | Ret artifact =>
      match extract_network artifact with
      | Ret net => (Ret (MkRVC d mp i artifact net), constructed mp d w)
      | Raise e =>
          (Raise e,
           record (EvTorchLoad mp d) (record (EvPrint ("Loading model: " ++ mp)) w))
      end
  | Raise e =>
      (Raise e, record (EvTorchLoad mp d) (record (EvPrint ("Loading model: " ++ mp)) w))
  end.
Proof.
  unfold RVCInference_init, torch_load, print, bind, emit, reads, lift, ret. simpl.
  destruct (torch_load_impl H (w_fs w) mp d) as [artifact | e]; [| reflexivity].
  now destruct (extract_network artifact).
Qed.

Lemma exit_unless_exists_run (label path : string) (w : world) :
  exit_unless_exists label path w =
  if path_exists (w_fs w) path
  then (Ret tt, w)
  else (Raise (MkExn SystemExit "1"),
        record (EvPrint ("Error: " ++ label ++ " not found: " ++ path)) w).
Proof.
  unfold exit_unless_exists. now destruct (path_exists (w_fs w) path).
Qed.

Lemma keeps_files_exit (label path : string) :
  keeps_files (exit_unless_exists label path).
Proof.
  intros w. rewrite exit_unless_exists_run. now destruct (path_exists (w_fs w) path).
Qed.

Lemma emits_exit (Q : event -> Prop) (label path : string) :
  Q (EvPrint ("Error: " ++ label ++ " not found: " ++ path)) ->
  emits Q (exit_unless_exists label path).
Proof.
  intros Hq w. rewrite exit_unless_exists_run.
  destruct (path_exists (w_fs w) path); simpl.
  - exists []. now rewrite app_nil_r.
  - exists [EvPrint ("Error: " ++ label ++ " not found: " ++ path)]. auto.
Qed.

Lemma keeps_files_init (mp : string) (i : option string) (d : string) :
  keeps_files (RVCInference_init H mp i d).
Proof. unfold RVCInference_init, torch_load. frame. Qed.

Lemma block_without_infer (self : RVCInference) (audio : ndarray) (t : tensor)
    (w : world) :
  py_hasattr (net_g self) "infer" = Ret false ->
  tensor_to_impl H (from_numpy_float audio) (device self) = Ret t ->
  conversion_block H self audio w =
  (Ret (VArray audio),
   record (EvPrint passthrough_warning) (record (EvTo (device self)) w)).
Proof.
  intros Hno Hto.
  unfold conversion_block, with_no_grad, tensor_bind, bind, emit, lift.
  rewrite Hto.
  unfold model_transformation, try_except_Exception, bind, lift.
  now rewrite Hno.
Qed.

(** X7: what a successful construction establishes.  The object holds the
    three constructor arguments, the artifact [torch.load] returned for that
    path and device, and the network extracted from it; the run has printed
    the two lines around one [torch.load] call, and nothing else. *)
Theorem init_postcondition (mp : string) (i : option string) (d : string)
    (w w' : world) (self : RVCInference) :
  RVCInference_init H mp i d w = (Ret self, w') ->
  device self = d /\ model_path self = mp /\ index_path self = i
  /\ torch_load_impl H (w_fs w) mp d = Ret (model self)
  /\ extract_network (model self) = Ret (net_g self)
  /\ w' = constructed mp d w.
Proof.
  rewrite init_run.
  destruct (torch_load_impl H (w_fs w) mp d) as [artifact | e]; [| discriminate].
  destruct (extract_network artifact) as [net | e] eqn:Enet; [| discriminate].
  intros [= <- <-]. simpl. repeat split; assumption || reflexivity.
Qed.

(** X8: how construction fails.  It raises [e] exactly when [torch.load]
    raises [e], or returns an artifact on which the extraction of lines
    41-44 raises [e]; it has then printed the "Loading model" line and
    called [torch.load], and the line "Model loaded successfully" is not
    printed. *)
Theorem init_failure (mp : string) (i : option string) (d : string)
    (w w' : world) (e : exn) :
  RVCInference_init H mp i d w = (Raise e, w')
  <->
  (w' = record (EvTorchLoad mp d) (record (EvPrint ("Loading model: " ++ mp)) w)
   /\ (torch_load_impl H (w_fs w) mp d = Raise e
       \/ exists artifact,
            torch_load_impl H (w_fs w) mp d = Ret artifact
            /\ extract_network artifact = Raise e)).
Proof.
  rewrite init_run. split.
  - destruct (torch_load_impl H (w_fs w) mp d) as [artifact | e0].
    + destruct (extract_network artifact) as [net | e0] eqn:Enet; [discriminate |].
      intros [= <- <-]. split; [reflexivity |]. right. now exists artifact.
    + intros [= <- <-]. split; [reflexivity |]. now left.
  - intros (-> & [Eload | (artifact & Eload & Enet)]).
    + now rewrite Eload.
    + now rewrite Eload, Enet.
Qed.


(** X10: a missing model file stops [main] first, whatever the other
    arguments (the input is not even looked at): it prints the one error
    line and leaves with [SystemExit(1)], with no library call. *)
Theorem main_missing_model_exits (a : args) (w : world) :
  path_exists (w_fs w) (arg_model a) = false ->
  main H a w =
  (Raise (MkExn SystemExit "1"),
   record (EvPrint ("Error: Model not found: " ++ arg_model a)) w).
Proof.
  intros Hmiss. unfold main.
  apply bind_Raise. rewrite exit_unless_exists_run. now rewrite Hmiss.
Qed.

(** X11: with the model file present and the input file missing, [main]
    prints the one error line and leaves with [SystemExit(1)] before the
    model is loaded. *)
Theorem main_missing_input_exits (a : args) (w : world) :
  path_exists (w_fs w) (arg_model a) = true ->
  path_exists (w_fs w) (arg_input a) = false ->
  main H a w =
  (Raise (MkExn SystemExit "1"),
   record (EvPrint ("Error: Input file not found: " ++ arg_input a)) w).
Proof.
  intros Hmodel Hmiss. unfold main.
  rewrite (bind_Ret _ _ w w tt); [| rewrite exit_unless_exists_run; now rewrite Hmodel].
  apply bind_Raise. rewrite exit_unless_exists_run. now rewrite Hmiss.
Qed.

(** X12: a checkpoint whose network is plain data (a mapping without
    ["model"], a mapping whose ["model"] entry is a state dict, a list, an
    array) can only be passed through.  Construction succeeds, and once the
    input is loaded and its tensor is bound to the device, the probe of line
    63 is false, the warning is printed, and the run goes on to the
    pitch-shift stage and the encode with the loaded input samples. *)
Theorem data_checkpoint_passthrough (a : args) (w w0 : world)
    (artifact net : value) (audio : ndarray) (t : tensor) :
  torch_load_impl H (w_fs w) (arg_model a) (arg_device a) = Ret artifact ->
  extract_network artifact = Ret net ->
  is_instance net = false ->
  load_audio H (arg_input a) 16000
    (record (EvPrint (converting_message (arg_input a) (arg_output a)))
       (constructed (arg_model a) (arg_device a) w)) = (Ret audio, w0) ->
  tensor_to_impl H (from_numpy_float audio) (arg_device a) = Ret t ->
  run_inference H a w =
  postprocess H (arg_output a) (VArray audio) (arg_pitch a)
    (record (EvPrint passthrough_warning) (record (EvTo (arg_device a)) w0)).
Proof.
  intros Eload Enet Hdata Eaudio Eto.
  unfold run_inference.
  rewrite (bind_Ret _ _ w (constructed (arg_model a) (arg_device a) w)
             (MkRVC (arg_device a) (arg_model a) (arg_index a) artifact net));
    [| rewrite init_run, Eload, Enet; reflexivity].
  apply (convert_after_block H _ _ _ _ _ _ w0 _ audio (VArray audio) Eaudio).
  apply (block_without_infer
           (MkRVC (arg_device a) (arg_model a) (arg_index a) artifact net) audio t w0);
    [| exact Eto].
  now apply builtin_has_no_infer.
Qed.

End Runs.

(** ** What a run touches, and what its output lines mean *)

Ltac not_done_line :=
  unfold not_done, converting_message, conversion_error, saved_message,
    passthrough_warning;
  simpl; intros Heq; discriminate Heq.

Section Observations.

Variable H : host.

Lemma emits_convert (Q : event -> Prop) (self : RVCInference)
    (input_path output_path : string) (pitch_shift : Z) (f0_method : string) :
  Q (EvPrint (converting_message input_path output_path)) ->
  Q (EvPrint passthrough_warning) ->
  (forall e, Q (EvPrint (conversion_error e))) ->
  Q (EvPrint (saved_message output_path)) ->
  Q (EvDecode input_path) ->
  (forall r, Q (EvResample r 16000)) ->
  Q (EvTo (device self)) ->
  Q (EvPitchShift 16000 pitch_shift) ->
  Q (EvWrite output_path 16000) ->
  emits Q (convert H self input_path output_path pitch_shift f0_method).
Proof.
  intros Hc Hw He Hs Hd Hr Ht Hp Hwr. unfold convert.
  apply emits_bind; [now apply emits_print | intros _].
  apply emits_bind; [now apply emits_load_audio | intros audio].
  apply emits_bind.
  - unfold conversion_block, tensor_bind, model_transformation. frame.
  - intros y. unfold postprocess, save_output, save_audio.
    apply emits_bind; [now apply emits_apply_pitch_shift | intros y'].
    apply emits_bind; [now apply emits_sf_write | intros _]. frame.
Qed.

Lemma emits_run_inference (Q : event -> Prop) (a : args) :
  Q (EvPrint ("Loading model: " ++ arg_model a)) ->
  Q (EvPrint "Model loaded successfully") ->
  Q (EvTorchLoad (arg_model a) (arg_device a)) ->
  Q (EvPrint (converting_message (arg_input a) (arg_output a))) ->
  Q (EvPrint passthrough_warning) ->
  (forall e, Q (EvPrint (conversion_error e))) ->
  Q (EvPrint (saved_message (arg_output a))) ->
  Q (EvDecode (arg_input a)) ->
  (forall r, Q (EvResample r 16000)) ->
  Q (EvTo (arg_device a)) ->
  Q (EvPitchShift 16000 (arg_pitch a)) ->
  Q (EvWrite (arg_output a) 16000) ->
  emits Q (run_inference H a).
Proof.
  intros Hl Hok Htl Hc Hw He Hs Hd Hr Ht Hp Hwr w.
  unfold run_inference, bind. rewrite init_run.
  destruct (torch_load_impl H (w_fs w) (arg_model a) (arg_device a)) as [artifact | e].
  - destruct (extract_network artifact) as [net | e].
    + destruct (emits_convert Q
                  (MkRVC (arg_device a) (arg_model a) (arg_index a) artifact net)
                  (arg_input a) (arg_output a) (arg_pitch a) "dio"
                  Hc Hw He Hs Hd Hr Ht Hp Hwr
                  (constructed (arg_model a) (arg_device a) w)) as (evs & Et & Fq).
      exists ([EvPrint ("Loading model: " ++ arg_model a);
               EvTorchLoad (arg_model a) (arg_device a);
               EvPrint "Model loaded successfully"] ++ evs).
      split.
      * rewrite Et. unfold constructed, record. simpl. now rewrite <- !app_assoc.
      * apply Forall_app. split; [repeat constructor; assumption | exact Fq].
    + exists [EvPrint ("Loading model: " ++ arg_model a);
              EvTorchLoad (arg_model a) (arg_device a)].
      split; [simpl; now rewrite <- app_assoc | repeat constructor; assumption].
  - exists [EvPrint ("Loading model: " ++ arg_model a);
            EvTorchLoad (arg_model a) (arg_device a)].
    split; [simpl; now rewrite <- app_assoc | repeat constructor; assumption].
Qed.

(** X13: a run of [main] touches nothing but what its command line names.
    Every library call it issues is on the given model path and device, the
    given input path, the given output path, the given pitch, and the rate
    16000; the index path is never opened. *)
Theorem main_is_confined (a : args) : emits (confined a) (main H a).
Proof.
  unfold main.
  apply emits_bind; [apply emits_exit; exact I | intros _].
  apply emits_bind; [apply emits_exit; exact I | intros _].
  apply emits_bind; [| intros _; apply emits_print; exact I].
  apply emits_run_inference; simpl; auto.
Qed.

Lemma convert_Ret_inv (self : RVCInference) (input_path output_path : string)
    (pitch_shift : Z) (f0_method : string) (w w' : world) (r : string) :
  convert H self input_path output_path pitch_shift f0_method w = (Ret r, w') ->
  r = output_path
  /\ exists y evs,
       sf_write_impl H (w_fs w) output_path y 16000 = (Ret tt, w_fs w')
       /\ w_trace w' =
          w_trace w ++ evs
          ++ [EvWrite output_path 16000; EvPrint (saved_message output_path)]
       /\ Forall not_write evs.
Proof.
  intros E. unfold convert in E.
  apply bind_Ret_inv in E. destruct E as ([] & w0 & Eprint & E).
  injection Eprint as <-.
  apply bind_Ret_inv in E. destruct E as (audio & w1 & Eload & E).
  apply bind_Ret_inv in E. destruct E as (y & w2 & Eblock & E).
  unfold postprocess in E.
  apply bind_Ret_inv in E. destruct E as (y' & w3 & Eshift & E).
  destruct (before_pitch_shift_frame H self input_path output_path w w1 w2 audio y
              Eload Eblock) as (Kf & evs & Et & Fw).
  pose proof (keeps_files_run _ _ _ _ (keeps_files_apply_pitch_shift H y pitch_shift)
                Eshift) as Kf3.
  destruct (emits_run not_write _ _ _ _
              (emits_apply_pitch_shift H not_write y pitch_shift I) Eshift)
    as (evs3 & Et3 & Fw3).
  rewrite save_output_run in E.
  destruct (sf_write_impl H (w_fs w3) output_path y' 16000) as [[[] | e] files] eqn:Ewrite;
    [| discriminate].
  injection E as <- <-. split; [reflexivity |].
  exists y', (evs ++ evs3). simpl. split; [| split].
  - now rewrite <- Kf, <- Kf3.
  - rewrite Et3, Et. now rewrite <- !app_assoc.
  - now apply Forall_app.
Qed.

(** X14: whenever [convert] returns, it returns its [output_path] argument,
    and the run has issued exactly one write, as its last library call: to
    that path, at 16000, on the file system as it was before the run; that
    write succeeded, and the "Saved" line follows it. *)
Theorem convert_returns_after_write (self : RVCInference)
    (input_path output_path : string) (pitch_shift : Z) (f0_method : string)
    (w w' : world) (r : string) :
  convert H self input_path output_path pitch_shift f0_method w = (Ret r, w') ->
  r = output_path
  /\ exists y evs,
       sf_write_impl H (w_fs w) output_path y 16000 = (Ret tt, w_fs w')
       /\ w_trace w' =
          w_trace w ++ evs
          ++ [EvWrite output_path 16000; EvPrint (saved_message output_path)]
       /\ Forall not_write evs.
Proof. apply convert_Ret_inv. Qed.

Lemma lines_of_one_line (text : string) :
  has_line_break text = false -> lines_of text = [text].
Proof.
  induction text as [| c rest IH]; simpl; [reflexivity |].
  destruct (Ascii.eqb c "010"%char); simpl; [discriminate |].
  intros Hrest. now rewrite (IH Hrest).
Qed.

Lemma stdout_lines_app (evs evs' : list event) :
  stdout_lines (evs ++ evs') = stdout_lines evs ++ stdout_lines evs'.
Proof. unfold stdout_lines. apply flat_map_app. Qed.

Lemma no_done_line (evs : list event) :
  Forall one_line evs -> Forall not_done evs -> ~ In "Done!" (stdout_lines evs).
Proof.
  induction 1 as [| ev rest H1 _ IH]; intros Hnd Hin; [exact Hin |].
  inversion Hnd as [| ? ? Hev Hrest]; subst.
  change (In "Done!" (stdout_lines ([ev] ++ rest))) in Hin.
  rewrite stdout_lines_app in Hin. apply in_app_or in Hin.
  destruct Hin as [Hin | Hin]; [| now apply IH].
  destruct ev as [text | | | | | |]; simpl in Hin; try contradiction.
  simpl in H1, Hev. rewrite app_nil_r, (lines_of_one_line text H1) in Hin.
  destruct Hin as [Heq | []]. now apply Hev.
Qed.

(** X15: what the line "Done!" on standard output means.  In every run of
    [main]: if [main] returns normally, "Done!" is one of the lines of its
    output; and conversely, when no text the run printed spans several lines
    (no path and no caught error message holds a line break), a line "Done!"
    in the output means that [main] returned normally (no exception, no
    [SystemExit]). *)
Theorem done_line_iff_success (a : args) (w : world) :
  exists evs,
    w_trace (snd (main H a w)) = w_trace w ++ evs
    /\ (fst (main H a w) = Ret tt -> In "Done!" (stdout_lines evs))
    /\ (Forall one_line evs ->
        In "Done!" (stdout_lines evs) -> fst (main H a w) = Ret tt).
Proof.
  assert (Hpre : emits not_done
            (bind (exit_unless_exists "Model" (arg_model a))
               (fun _ => bind (exit_unless_exists "Input file" (arg_input a))
                  (fun _ => run_inference H a)))).
  { apply emits_bind; [apply emits_exit; not_done_line | intros _].
    apply emits_bind; [apply emits_exit; not_done_line | intros _].
    apply emits_run_inference; try exact I; try not_done_line.
    - intros e. not_done_line.
    - intros r. exact I. }
  destruct (Hpre w) as (evs & Et & Fq).
  assert (Emain : main H a w =
            bind (bind (exit_unless_exists "Model" (arg_model a))
                    (fun _ => bind (exit_unless_exists "Input file" (arg_input a))
                       (fun _ => run_inference H a)))
                 (fun _ => print "Done!") w).
  { unfold main, bind.
    destruct (exit_unless_exists "Model" (arg_model a) w) as [[[] | e] w1];
      [| reflexivity].
    now destruct (exit_unless_exists "Input file" (arg_input a) w1) as [[[] | e] w2]. }
  rewrite Emain.
  destruct (bind (exit_unless_exists "Model" (arg_model a))
              (fun _ => bind (exit_unless_exists "Input file" (arg_input a))
                 (fun _ => run_inference H a)) w) as [[r | e] w1] eqn:Epre;
    simpl in Et.
  - rewrite (bind_Ret _ _ _ _ _ Epre). simpl.
    exists (evs ++ [EvPrint "Done!"]). split; [now rewrite Et, app_assoc |].
    split; [| reflexivity].
    intros _. rewrite stdout_lines_app. apply in_or_app. right. now left.
  - rewrite (bind_Raise _ _ _ _ _ Epre). simpl.
    exists evs. split; [exact Et |]. split; [discriminate |].
    intros Hone Hin. now destruct (no_done_line evs Hone Fq).
Qed.

(** X16: [convert] reads its object only through [device] and [net_g], and
    ignores [f0_method]: two calls that agree on these two fields and on the
    other arguments behave alike, whatever the model path, the index path,
    the stored artifact and the F0 method. *)
Theorem convert_reads_device_and_network (self self' : RVCInference)
    (input_path output_path : string) (pitch_shift : Z) (f0 f0' : string)
    (w : world) :
  device self = device self' ->
  net_g self = net_g self' ->
  convert H self input_path output_path pitch_shift f0 w =
  convert H self' input_path output_path pitch_shift f0' w.
Proof.
  destruct self, self'. simpl. intros -> ->. reflexivity.
Qed.

End Observations.

Section Success.

Variable H : host.

(** X17: when [main] returns normally, both paths existed, and the output
    file is the work of one successful [sf.write] on the output path at
    16000, issued on the file system as it was at the start; the run ends
    with that write, the "Saved" line and "Done!", and has written nothing
    before. *)
Theorem main_success_written (a : args) (w w' : world) :
  main H a w = (Ret tt, w') ->
  path_exists (w_fs w) (arg_model a) = true
  /\ path_exists (w_fs w) (arg_input a) = true
  /\ exists y evs,
       sf_write_impl H (w_fs w) (arg_output a) y 16000 = (Ret tt, w_fs w')
       /\ w_trace w' =
          w_trace w ++ evs
          ++ [EvWrite (arg_output a) 16000; EvPrint (saved_message (arg_output a));
              EvPrint "Done!"]
       /\ Forall not_write evs.
Proof.
  intros E. unfold main in E.
  apply bind_Ret_inv in E. destruct E as ([] & w1 & E1 & E).
  rewrite exit_unless_exists_run in E1.
  destruct (path_exists (w_fs w) (arg_model a)) eqn:Pm; [| discriminate].
  injection E1 as <-.
  apply bind_Ret_inv in E. destruct E as ([] & w2 & E2 & E).
  rewrite exit_unless_exists_run in E2.
  destruct (path_exists (w_fs w) (arg_input a)) eqn:Pi; [| discriminate].
  injection E2 as <-.
  apply bind_Ret_inv in E. destruct E as (r & w3 & Erun & E).
  injection E as <-.
  unfold run_inference in Erun.
  apply bind_Ret_inv in Erun. destruct Erun as (rvc & w4 & Einit & Econv).
  rewrite init_run in Einit.
  destruct (torch_load_impl H (w_fs w) (arg_model a) (arg_device a)) as [artifact | e];
    [| discriminate].
  destruct (extract_network artifact) as [net | e]; [| discriminate].
  injection Einit as <- <-.
  apply convert_Ret_inv in Econv. destruct Econv as (_ & y & evs & Ew & Et & Fw).
  split; [reflexivity | split; [reflexivity |]].
  exists y,
    ([EvPrint ("Loading model: " ++ arg_model a);
      EvTorchLoad (arg_model a) (arg_device a);
      EvPrint "Model loaded successfully"] ++ evs).
  split; [exact Ew | split].
  - simpl. rewrite Et. unfold constructed, record. simpl.
    now rewrite <- !app_assoc.
  - apply Forall_app. split; [repeat constructor | exact Fw].
Qed.

(** X18: the path on which everything succeeds.  When the input loads, the
    tensor binds, [infer] returns a result, the extraction of line 65 makes
    a value of it, a non-zero pitch shift is asked for and succeeds and the
    write succeeds, [convert] returns the output path; what is written is
    the pitch-shifted extraction of what [infer] returned; the library calls
    after the load are, in this order, the binding, the pitch shift and the
    write; and the only line printed after the load is "Saved". *)
Theorem convert_success_path (self : RVCInference) (input_path output_path : string)
    (pitch_shift : Z) (f0_method : string) (w w0 : world) (audio : ndarray)
    (t : tensor) (infer output extracted : value) (shifted : ndarray) (files : fs) :
  load_audio H input_path 16000
    (record (EvPrint (converting_message input_path output_path)) w) = (Ret audio, w0) ->
  tensor_to_impl H (from_numpy_float audio) (device self) = Ret t ->
  py_getattr (net_g self) "infer" = Ret infer ->
  py_call infer [unsqueeze0 t] = Ret output ->
  extract_output output = Ret extracted ->
  pitch_shift <> 0 ->
  pitch_shift_impl H extracted 16000 pitch_shift = Ret shifted ->
  sf_write_impl H (w_fs w) output_path (VArray shifted) 16000 = (Ret tt, files) ->
  convert H self input_path output_path pitch_shift f0_method w =
  (Ret output_path,
   MkWorld files
     (w_trace w0
      ++ [EvTo (device self); EvPitchShift 16000 pitch_shift;
          EvWrite output_path 16000; EvPrint (saved_message output_path)])
     (w_grad w0)).
Proof.
  intros Eload Eto Eattr Ecall Eout Hp Eshift Ewrite.
  assert (Eblock : conversion_block H self audio w0 =
    (Ret extracted, record (EvTo (device self)) w0)).
  { unfold conversion_block, with_no_grad, tensor_bind, bind, emit, lift.
    rewrite Eto.
    now rewrite (extracted_output_run self audio t infer output extracted
                   (record (EvTo (device self)) (set_grad false w0)) Eattr Ecall Eout). }
  rewrite (convert_after_block H self input_path output_path pitch_shift f0_method
             w w0 _ audio _ Eload Eblock).
  pose proof (keeps_files_run _ _ _ _ (keeps_files_load_audio H input_path 16000) Eload)
    as Kf.
  simpl in Kf.
  unfold postprocess, apply_pitch_shift, librosa_pitch_shift.
  destruct (Z.eqb_spec pitch_shift 0) as [-> | _]; [contradiction |]. simpl.
  unfold bind at 1. unfold bind at 1. unfold emit, lift, bind at 1.
  rewrite Eshift. unfold ret at 1.
  rewrite save_output_run. simpl. rewrite Kf, Ewrite.
  unfold record. simpl. now rewrite <- !app_assoc.
Qed.

End Success.

(** ** Concrete runs for the further properties *)

Lemma extract_network_result_witness :
  (extract_network (VDict [("model", echo_net)]) = Ret echo_net
   /\ existsb (is_str "model") [VStr "head"; VStr "model"] = true
   /\ is_substring "model" "my model" = true)
  /\ (echo_net = VDict [("model", echo_net)]
      \/ exists kvs,
           VDict [("model", echo_net)] = VDict kvs /\ dict_get kvs "model" = Some echo_net)
  /\ extract_network (VList [VStr "head"; VStr "model"])
     = Raise (MkExn TypeError "list indices must be integers or slices, not str")
  /\ extract_network (VStr "my model")
     = Raise (MkExn TypeError "string indices must be integers").
Proof.
  split; [repeat split; reflexivity |].
  destruct extract_network_result as (Hres & Hlist & Hstr).
  split; [| split].
  - apply (Hres (VDict [("model", echo_net)]) echo_net). reflexivity.
  - apply Hlist. reflexivity.
  - apply Hstr. reflexivity.
Defined.

Lemma unviewable_tensor_passthrough_witness :
  (py_getattr (net_g (rvc "cpu" half_net)) "infer" = Ret half_infer
   /\ py_call half_infer [unsqueeze0 (from_numpy_float clip16k)]
      = Ret (VOtherTensor Bfloat16 [1%nat; 2%nat]))
  /\ exists e,
       is_Exception e = true
       /\ extract_output (VOtherTensor Bfloat16 [1%nat; 2%nat]) = Raise e
       /\ model_transformation (rvc "cpu" half_net) clip16k (from_numpy_float clip16k)
            (start disk)
          = (Ret (VArray clip16k), record (EvPrint (conversion_error e)) (start disk)).
Proof.
  split; [split; reflexivity |].
  apply (unviewable_tensor_passthrough (rvc "cpu" half_net) clip16k
           (from_numpy_float clip16k) half_infer Bfloat16 [1%nat; 2%nat] (start disk));
    reflexivity.
Defined.

Lemma non_tensor_output_passthrough_witness :
  (py_getattr (net_g (rvc "cpu" listing_net)) "infer" = Ret listing_infer
   /\ py_call listing_infer [unsqueeze0 (from_numpy_float clip16k)] = Ret (VList [])
   /\ may_extract (VList []) = false)
  /\ exists e,
       is_AttributeError e = true
       /\ model_transformation (rvc "cpu" listing_net) clip16k (from_numpy_float clip16k)
            (start disk)
          = (Ret (VArray clip16k), record (EvPrint (conversion_error e)) (start disk)).
Proof.
  split; [repeat split; reflexivity |].
  apply (non_tensor_output_passthrough (rvc "cpu" listing_net) clip16k
           (from_numpy_float clip16k) listing_infer (VList []) (start disk));
    reflexivity.
Defined.

Lemma echo_round_trip_witness :
  (tensor_to_impl ref_host (from_numpy_float clip16k) (device (rvc "cpu" echo_net))
   = Ret (from_numpy_float clip16k)
   /\ py_getattr (net_g (rvc "cpu" echo_net)) "infer" = Ret echo_infer
   /\ py_call echo_infer [unsqueeze0 (from_numpy_float clip16k)]
      = Ret (VTensor (unsqueeze0 (from_numpy_float clip16k)))
   /\ Forall (fun d => d <> 1%nat) (a_shape clip16k))
  /\ conversion_block ref_host (rvc "cpu" echo_net) clip16k (start disk)
     = (Ret (VArray clip16k), record (EvTo "cpu") (start disk)).
Proof.
  assert (Hshape : Forall (fun d => d <> 1%nat) (a_shape clip16k))
    by (repeat constructor; discriminate).
  split; [repeat split; try reflexivity; exact Hshape |].
  apply (proj1 (proj2 (echo_round_trip ref_host (rvc "cpu" echo_net) clip16k
                         (from_numpy_float clip16k) echo_infer (start disk)
                         eq_refl eq_refl eq_refl eq_refl eq_refl))).
  exact Hshape.
Defined.

Lemma passthrough_is_signalled_witness :
  conversion_block ref_host (rvc "cpu" broken_net) clip16k (start disk)
  = (Ret (VArray clip16k),
     record (EvPrint (conversion_error size_mismatch)) (record (EvTo "cpu") (start disk)))
  /\ exists t,
       tensor_to_impl ref_host (from_numpy_float clip16k) (device (rvc "cpu" broken_net))
       = Ret t.
Proof.
  split; [reflexivity |].
  destruct (passthrough_is_signalled ref_host (rvc "cpu" broken_net) clip16k (start disk)
              (record (EvPrint (conversion_error size_mismatch))
                 (record (EvTo "cpu") (start disk)))
              (VArray clip16k) eq_refl) as (t & Hto & _).
  now exists t.
Defined.

Lemma init_postcondition_witness :
  RVCInference_init ref_host "echo.pth" (Some "added.index") "cpu" (start disk)
  = (Ret (MkRVC "cpu" "echo.pth" (Some "added.index") (VDict [("model", echo_net)]) echo_net),
     constructed "echo.pth" "cpu" (start disk))
  /\ extract_network (VDict [("model", echo_net)]) = Ret echo_net.
Proof.
  split; [reflexivity |].
  apply (init_postcondition ref_host "echo.pth" (Some "added.index") "cpu" (start disk)
           (constructed "echo.pth" "cpu" (start disk))
           (MkRVC "cpu" "echo.pth" (Some "added.index") (VDict [("model", echo_net)])
              echo_net)
           eq_refl).
Defined.

Lemma init_failure_witness :
  RVCInference_init ref_host "in8k.wav" None "cpu" (start disk)
  = (Raise (MkExn (LibraryError "UnpicklingError") "invalid load key"),
     record (EvTorchLoad "in8k.wav" "cpu")
       (record (EvPrint "Loading model: in8k.wav") (start disk)))
  /\ (torch_load_impl ref_host (w_fs (start disk)) "in8k.wav" "cpu"
      = Raise (MkExn (LibraryError "UnpicklingError") "invalid load key")
      \/ exists artifact,
           torch_load_impl ref_host (w_fs (start disk)) "in8k.wav" "cpu" = Ret artifact
           /\ extract_network artifact
              = Raise (MkExn (LibraryError "UnpicklingError") "invalid load key")).
Proof.
  split; [reflexivity |].
  apply (proj1 (init_failure ref_host "in8k.wav" None "cpu" (start disk)
                  (record (EvTorchLoad "in8k.wav" "cpu")
                     (record (EvPrint "Loading model: in8k.wav") (start disk)))
                  (MkExn (LibraryError "UnpicklingError") "invalid load key")) eq_refl).
Defined.


Lemma main_missing_model_exits_witness :
  path_exists (w_fs (start disk)) "nope.pth" = false
  /\ main ref_host (MkArgs "nope.pth" None "nope.wav" "out.wav" 0 "cpu") (start disk)
     = (Raise (MkExn SystemExit "1"),
        record (EvPrint "Error: Model not found: nope.pth") (start disk)).
Proof.
  split; [reflexivity |].
  apply (main_missing_model_exits ref_host
           (MkArgs "nope.pth" None "nope.wav" "out.wav" 0 "cpu") (start disk) eq_refl).
Defined.

Lemma main_missing_input_exits_witness :
  (path_exists (w_fs (start disk)) "echo.pth" = true
   /\ path_exists (w_fs (start disk)) "nope.wav" = false)
  /\ main ref_host (MkArgs "echo.pth" None "nope.wav" "out.wav" 0 "cpu") (start disk)
     = (Raise (MkExn SystemExit "1"),
        record (EvPrint "Error: Input file not found: nope.wav") (start disk)).
Proof.
  split; [split; reflexivity |].
  apply (main_missing_input_exits ref_host
           (MkArgs "echo.pth" None "nope.wav" "out.wav" 0 "cpu") (start disk)
           eq_refl eq_refl).
Defined.

Lemma data_checkpoint_passthrough_witness :
  (torch_load_impl ref_host (w_fs (start (put disk "weights.pth" [Byte.x01])))
     "weights.pth" "cpu" = Ret weights
   /\ extract_network weights = Ret weights
   /\ is_instance weights = false
   /\ load_audio ref_host "in16k.wav" 16000
        (record (EvPrint (converting_message "in16k.wav" "out.wav"))
           (constructed "weights.pth" "cpu" (start (put disk "weights.pth" [Byte.x01]))))
      = (Ret clip16k,
         record (EvDecode "in16k.wav")
           (record (EvPrint (converting_message "in16k.wav" "out.wav"))
              (constructed "weights.pth" "cpu"
                 (start (put disk "weights.pth" [Byte.x01])))))
   /\ tensor_to_impl ref_host (from_numpy_float clip16k) "cpu"
      = Ret (from_numpy_float clip16k))
  /\ fst (run_inference ref_host
            (MkArgs "weights.pth" None "in16k.wav" "out.wav" 0 "cpu")
            (start (put disk "weights.pth" [Byte.x01])))
     = Ret "out.wav"
  /\ w_fs (snd (run_inference ref_host
                  (MkArgs "weights.pth" None "in16k.wav" "out.wav" 0 "cpu")
                  (start (put disk "weights.pth" [Byte.x01])))) "out.wav"
     = Some (encode_audio clip16k 16000).
Proof.
  split; [repeat split; reflexivity |].
  rewrite (data_checkpoint_passthrough ref_host
             (MkArgs "weights.pth" None "in16k.wav" "out.wav" 0 "cpu")
             (start (put disk "weights.pth" [Byte.x01]))
             (record (EvDecode "in16k.wav")
                (record (EvPrint (converting_message "in16k.wav" "out.wav"))
                   (constructed "weights.pth" "cpu"
                      (start (put disk "weights.pth" [Byte.x01])))))
             weights weights clip16k (from_numpy_float clip16k)
             eq_refl eq_refl eq_refl eq_refl eq_refl).
  split; reflexivity.
Defined.

Lemma convert_returns_after_write_witness :
  convert ref_host (rvc "cpu" plain_net) "in16k.wav" "out.wav" 0 "dio" (start disk)
  = (Ret "out.wav",
     snd (convert ref_host (rvc "cpu" plain_net) "in16k.wav" "out.wav" 0 "dio"
            (start disk)))
  /\ exists y evs,
       sf_write_impl ref_host (w_fs (start disk)) "out.wav" y 16000
       = (Ret tt,
          w_fs (snd (convert ref_host (rvc "cpu" plain_net) "in16k.wav" "out.wav" 0 "dio"
                       (start disk))))
       /\ w_trace (snd (convert ref_host (rvc "cpu" plain_net) "in16k.wav" "out.wav" 0
                          "dio" (start disk)))
          = w_trace (start disk) ++ evs
            ++ [EvWrite "out.wav" 16000; EvPrint (saved_message "out.wav")]
       /\ Forall not_write evs.
Proof.
  split; [reflexivity |].
  apply (proj2 (convert_returns_after_write ref_host (rvc "cpu" plain_net)
                  "in16k.wav" "out.wav" 0 "dio" (start disk)
                  (snd (convert ref_host (rvc "cpu" plain_net) "in16k.wav" "out.wav" 0
                          "dio" (start disk)))
                  "out.wav" eq_refl)).
Defined.

Lemma convert_reads_device_and_network_witness :
  (device (rvc "cpu" echo_net) = device (MkRVC "cpu" "other.pth" (Some "x.index") VNone echo_net)
   /\ net_g (rvc "cpu" echo_net)
      = net_g (MkRVC "cpu" "other.pth" (Some "x.index") VNone echo_net))
  /\ convert ref_host (rvc "cpu" echo_net) "in8k.wav" "out.wav" 2 "dio" (start disk)
     = convert ref_host (MkRVC "cpu" "other.pth" (Some "x.index") VNone echo_net)
         "in8k.wav" "out.wav" 2 "harvest" (start disk).
Proof.
  split; [split; reflexivity |].
  apply (convert_reads_device_and_network ref_host (rvc "cpu" echo_net)
           (MkRVC "cpu" "other.pth" (Some "x.index") VNone echo_net)
           "in8k.wav" "out.wav" 2 "dio" "harvest" (start disk) eq_refl eq_refl).
Defined.

Lemma main_success_written_witness :
  main ref_host (MkArgs "echo.pth" None "in8k.wav" "out.wav" 0 "cpu") (start disk)
  = (Ret tt,
     snd (main ref_host (MkArgs "echo.pth" None "in8k.wav" "out.wav" 0 "cpu") (start disk)))
  /\ path_exists (w_fs (start disk)) "echo.pth" = true
  /\ path_exists (w_fs (start disk)) "in8k.wav" = true
  /\ exists y evs,
       sf_write_impl ref_host (w_fs (start disk)) "out.wav" y 16000
       = (Ret tt,
          w_fs (snd (main ref_host (MkArgs "echo.pth" None "in8k.wav" "out.wav" 0 "cpu")
                       (start disk))))
       /\ w_trace (snd (main ref_host (MkArgs "echo.pth" None "in8k.wav" "out.wav" 0 "cpu")
                          (start disk)))
          = w_trace (start disk) ++ evs
            ++ [EvWrite "out.wav" 16000; EvPrint (saved_message "out.wav");
                EvPrint "Done!"]
       /\ Forall not_write evs.
Proof.
  split; [reflexivity |].
  apply (main_success_written ref_host
           (MkArgs "echo.pth" None "in8k.wav" "out.wav" 0 "cpu") (start disk)
           (snd (main ref_host (MkArgs "echo.pth" None "in8k.wav" "out.wav" 0 "cpu")
                   (start disk)))
           eq_refl).
Defined.

Lemma convert_success_path_witness :
  (load_audio ref_host "in16k.wav" 16000
     (record (EvPrint (converting_message "in16k.wav" "out.wav")) (start disk))
   = (Ret clip16k, decoded "in16k.wav" "out.wav")
   /\ tensor_to_impl ref_host (from_numpy_float clip16k) (device (rvc "cpu" echo_net))
      = Ret (from_numpy_float clip16k)
   /\ py_getattr (net_g (rvc "cpu" echo_net)) "infer" = Ret echo_infer
   /\ py_call echo_infer [unsqueeze0 (from_numpy_float clip16k)]
      = Ret (VTensor (unsqueeze0 (from_numpy_float clip16k)))
   /\ extract_output (VTensor (unsqueeze0 (from_numpy_float clip16k)))
      = Ret (VArray clip16k)
   /\ 3 <> 0
   /\ pitch_shift_impl ref_host (VArray clip16k) 16000 3 = Ret clip16k
   /\ sf_write_impl ref_host (w_fs (start disk)) "out.wav" (VArray clip16k) 16000
      = (Ret tt, put disk "out.wav" (encode_audio clip16k 16000)))
  /\ convert ref_host (rvc "cpu" echo_net) "in16k.wav" "out.wav" 3 "dio" (start disk)
     = (Ret "out.wav",
        MkWorld (put disk "out.wav" (encode_audio clip16k 16000))
          (w_trace (decoded "in16k.wav" "out.wav")
           ++ [EvTo "cpu"; EvPitchShift 16000 3; EvWrite "out.wav" 16000;
               EvPrint (saved_message "out.wav")])
          (w_grad (decoded "in16k.wav" "out.wav"))).
Proof.
  split; [repeat split; try reflexivity; discriminate |].
  apply (convert_success_path ref_host (rvc "cpu" echo_net) "in16k.wav" "out.wav" 3 "dio"
           (start disk) (decoded "in16k.wav" "out.wav") clip16k
           (from_numpy_float clip16k) echo_infer
           (VTensor (unsqueeze0 (from_numpy_float clip16k))) (VArray clip16k)
           clip16k (put disk "out.wav" (encode_audio clip16k 16000))
           eq_refl eq_refl eq_refl eq_refl eq_refl ltac:(discriminate) eq_refl eq_refl).
Defined.

Lemma done_line_iff_success_witness :
  fst (main ref_host (MkArgs "echo.pth" None "in8k.wav" "out.wav" 0 "cpu") (start disk))
  = Ret tt
  /\ exists evs,
       w_trace (snd (main ref_host (MkArgs "echo.pth" None "in8k.wav" "out.wav" 0 "cpu")
                       (start disk)))
       = w_trace (start disk) ++ evs
       /\ Forall one_line evs
       /\ In "Done!" (stdout_lines evs).
Proof.
  split; [reflexivity |].
  destruct (done_line_iff_success ref_host
              (MkArgs "echo.pth" None "in8k.wav" "out.wav" 0 "cpu") (start disk))
    as (evs & Et & Hdone & _).
  exists evs. split; [exact Et | split; [| now apply Hdone]].
  simpl in Et. rewrite <- Et. repeat constructor.
Defined.
